(** * app.py: the crypto market analysis agent, embedded and verified

    A shallow embedding of [src/app.py].  The script is a Streamlit page:
    module-level code reads the configuration, builds four task descriptions
    from the sidebar widgets, declares four agents, four tasks and a crew, and
    the "Generate Analysis" button handler fetches market data, runs the crew
    and composes the report.

    Conventions of the embedding
    - decoded JSON is the type [json]; Python dicts are [gmap string _];
    - effects are a trace of [event]s together with an [outcome]
      (a returned value, a raised exception, or [st.stop()]);
    - whatever the network, the language model, pandas and the plotting
      calls decide is read from a [world] record of oracles;
    - Python floats are IEEE 754 binary64 values ([spec_float]). *)

From Stdlib Require Import ZArith QArith Qround String Ascii List DecimalString Decimal.
From Stdlib Require Import SpecFloat.
From stdpp Require Import base gmap strings list.

#[local] Set Warnings "-register-all".
#[local] Open Scope string_scope.
#[local] Open Scope list_scope.

(** ** Text helpers *)

Definition nl : string := String (ascii_of_nat 10) EmptyString.

(** Python's [needle in hay] on two [str] values. *)
Fixpoint contains (needle hay : string) : bool :=
  if String.prefix needle hay then true
  else match hay with
       | EmptyString => false
       | String _ rest => contains needle rest
       end.

(** [str(n)] for a Python [int]. *)
Definition str_int (n : Z) : string := NilZero.string_of_int (Z.to_int n).

(** Zero padding on the left, as the [%d] directive of [strftime] does. *)
Definition pad2 (n : Z) : string :=
  if (n <? 10)%Z then "0" +:+ str_int n else str_int n.

(** ** Doubles *)

(** A Python [float]: an IEEE 754 binary64 value. *)
Abbreviation double := spec_float.

Definition double_prec : Z := 53.
Definition double_emax : Z := 1024.

(** The double nearest to an integer, ties to even; infinite when the
    integer is too large. *)
Definition double_of_Z (z : Z) : double :=
  binary_normalize double_prec double_emax z 0 false.

(** [x / y] on doubles. *)
Definition double_div (x y : double) : double := SFdiv double_prec double_emax x y.

(** The value of a finite double [m * 2^e], as a fraction. *)
Definition double_magnitude (m : positive) (e : Z) : Q :=
  if (0 <=? e)%Z then inject_Z (Zpos m * 2 ^ e)
  else Qmake (Zpos m) (Z.to_pos (2 ^ (- e))).

(** ** Python values *)

(** What [response.json()] can return. *)
Inductive json : Type :=
| JNull
| JBool (b : bool)
| JInt (z : Z)
| JFloat (f : double)
| JStr (s : string)
| JArr (l : list json)
| JObj (m : gmap string json).

(** The empty dict [{}]. *)
Definition empty_dict : json := JObj ∅.

(** Values bound to module-level names. *)
Inductive pyval : Type :=
| PyStr (s : string)
| PyInt (z : Z)
| PyObj (what : string).

Inductive exn : Type :=
| NameError (name : string)
| KeyError (key : string)
| KeyErrorInt (key : Z)
| TypeError
| AttributeError (attr : string)
| ValueError (msg : string)
| OverflowError
| GenerationFailed (role msg : string)
| LibraryError (cls msg : string).

(** How a call ends: it returns, it raises an [Exception], or the script is
    halted by [st.stop()] (a [BaseException], which [except Exception] does
    not catch).  [Unmodelled] is for what an oracle of the world gives that
    is none of these. *)
Inductive outcome (A : Type) : Type :=
| Ret (a : A)
| Raise (e : exn)
| Halt
| Unmodelled.
Arguments Ret {A} a.
Arguments Raise {A} e.
Arguments Halt {A}.
Arguments Unmodelled {A}.

(** Truth value of a decoded JSON value ([if v:], [not v]). *)
Definition truthy (v : json) : bool :=
  match v with
  | JNull => false
  | JBool b => b
  | JInt z => negb (z =? 0)%Z
  | JFloat f => negb (SFeqb f (S754_zero false))
  | JStr s => negb (String.eqb s "")
  | JArr l => match l with [] => false | _ => true end
  | JObj m => negb (bool_decide (m = ∅))
  end.

Definition is_str (s : string) (v : json) : bool :=
  match v with JStr s' => String.eqb s s' | _ => false end.

(** [key in v] for a [str] key. *)
Definition py_in (key : string) (v : json) : outcome bool :=
  match v with
  | JObj m => Ret (bool_decide (is_Some (m !! key)))
  | JArr l => Ret (existsb (is_str key) l)
  | JStr s => Ret (contains key s)
  | _ => Raise TypeError
  end.

(** [v[key]] for a [str] key. *)
Definition py_getitem (v : json) (key : string) : outcome json :=
  match v with
  | JObj m => match m !! key with
              | Some x => Ret x
              | None => Raise (KeyError key)
              end
  | _ => Raise TypeError
  end.

(** [v[0]]. *)
Definition py_getitem0 (v : json) : outcome json :=
  match v with
  | JArr l => match l with
              | x :: _ => Ret x
              | [] => Raise (LibraryError "IndexError" "list index out of range")
              end
  | JStr s => match s with
              | String c _ => Ret (JStr (String c EmptyString))
              | EmptyString => Raise (LibraryError "IndexError" "string index out of range")
              end
  | JObj _ => Raise (KeyErrorInt 0)
  | _ => Raise TypeError
  end.

(** [v.get(key)], with [None] as the default. *)
Definition py_get (v : json) (key : string) : outcome json :=
  match v with
  | JObj m => Ret (default JNull (m !! key))
  | _ => Raise (AttributeError "get")
  end.

(** [v.get(key, dflt)]. *)
Definition py_get_default (v : json) (key : string) (dflt : json) : outcome json :=
  match v with
  | JObj m => Ret (default dflt (m !! key))
  | _ => Raise (AttributeError "get")
  end.

(** ** Effects *)

Inductive event : Type :=
| EvRequestsGet (url : string) (headers : gmap string pyval) (params : gmap string string)
| EvSpinner (text : string)
| EvError (text : string) (cause : option exn)
| EvKickoff
| EvTaskRun (position : nat) (context : list (string * string))
| EvTabs (names : list string)
| EvMetric (label value : string)
| EvPlotly (title : string)
| EvSubheader (text : string)
| EvMarkdown (text : string)
| EvDataframe
| EvInfo (text : string).

(** A computation: the events it produced and how it ended. *)
Definition M (A : Type) : Type := (list event * outcome A)%type.

#[export] Instance M_ret : MRet M := λ A a, ([], Ret a).

#[export] Instance M_bind : MBind M := λ A B f m,
  match m with
  | (t, Ret a) => let '(t', r) := f a in (t ++ t', r)
  | (t, Raise e) => (t, Raise e)
  | (t, Halt) => (t, Halt)
  | (t, Unmodelled) => (t, Unmodelled)
  end.

Definition emit (ev : event) : M unit := ([ev], Ret tt).
Definition lift {A} (o : outcome A) : M A := ([], o).
Definition raise {A} (e : exn) : M A := ([], Raise e).

(** [st.error(f"{text}{e}")] and [st.stop()]. *)
Definition st_error (text : string) (cause : option exn) : M unit :=
  emit (EvError text cause).
Definition st_stop {A} : M A := ([], Halt).

(** [try: body  except Exception as e: handler e]. *)
Definition try_except {A} (body : M A) (handler : exn → M A) : M A :=
  match body with
  | (t, Raise e) => let '(t', r) := handler e in (t ++ t', r)
  | other => other
  end.

Definition trace_of {A} (m : M A) : list event := fst m.
Definition outcome_of {A} (m : M A) : outcome A := snd m.

(** ** The world outside the script *)

(** What the three calls inside a [try] around [requests.get] do:
    [requests.get] raises (transport error), [raise_for_status] raises (error
    status), [response.json()] raises (the body is not JSON), or the body
    decodes to a value. *)
Inductive http_outcome : Type :=
| GetRaises (e : exn)
| StatusRaises (e : exn)
| JsonRaises (e : exn)
| JsonBody (v : json).

(** What one agent run (tools, then one language-model call) gives. *)
Inductive gen_result : Type :=
| Generated (text : string)
| GenerationFails (msg : string).

Inductive tool : Type :=
| SerperDevTool (n_results : Z).

Record LLM : Type := { llm_model : string; llm_api_key : string }.

Record Agent : Type := {
  role : string;
  goal : string;
  backstory : string;
  tools : list tool;
  llm : LLM;
  agent_verbose : bool
}.

Record Task : Type := {
  description : string;
  expected_output : string;
  agent : Agent
}.

Record Crew : Type := {
  crew_agents : list Agent;
  crew_tasks : list Task;
  crew_verbose : bool
}.

(** One dict of the list comprehension: what the six subscripts gave. *)
Record row : Type := {
  row_name : json;
  row_symbol : json;
  row_price : json;
  row_market_cap : json;
  row_volume_24h : json;
  row_change_24h : json
}.

(** What a pandas reduction gives: a numpy integer or a double. *)
Inductive number : Type :=
| NInt (z : Z)
| NFloat (f : double).

(** The running context of a crew: (role, output text) pairs. *)
Abbreviation context := (list (string * string)).

Record world : Type := {
  w_market : http_outcome;
  w_sentiment : http_outcome;
  (** the agent of the task at a position, run on a context *)
  w_agent_run : nat → Task → context → gen_result;
  (** [str()] of floats and containers, [float()] of a [str] *)
  w_repr : json → string;
  w_float_of_str : string → option double;
  (** pandas: [Series.sum()] and [Series.mean()] of a column *)
  w_series_sum : list json → outcome number;
  w_series_mean : list json → outcome double;
  (** the exception, if any, raised by [px.treemap] and its display, by
      the price figure of the first [top_n] rows and its display, by the
      gauge figure and its display, and by the sorted table and its display *)
  w_treemap : list row → option exn;
  w_price_chart : list row → Z → option exn;
  w_gauge : double → option exn;
  w_dataframe : list row → option exn
}.

(** ** Environment setup (lines 19-31) *)

Record config : Type := {
  COINMARKETCAP_API_KEY : string;
  GEMINI_API_KEY : string;
  MODEL : string
}.

(** [if not os.getenv(name): raise ValueError(...)]: an unset and an empty
    variable are both refused. *)
Definition require_env (getenv : string → option string) (name : string) : outcome string :=
  match getenv name with
  | Some (String c s) => Ret (String c s)
  | _ => Raise (ValueError ("Missing environment variable: " +:+ name))
  end.

Definition load_config (getenv : string → option string) : outcome config :=
  match require_env getenv "COINMARKETCAP_API_KEY" with
  | Ret k =>
      match require_env getenv "GEMINI_API_KEY" with
      | Ret g =>
          match require_env getenv "MODEL" with
          | Ret m => Ret {| COINMARKETCAP_API_KEY := k; GEMINI_API_KEY := g; MODEL := m |}
          | Raise e => Raise e | Halt => Halt | Unmodelled => Unmodelled
          end
      | Raise e => Raise e | Halt => Halt | Unmodelled => Unmodelled
      end
  | Raise e => Raise e | Halt => Halt | Unmodelled => Unmodelled
  end.

Definition make_llm (c : config) : LLM :=
  {| llm_model := MODEL c; llm_api_key := GEMINI_API_KEY c |}.

(** ** Sidebar inputs (lines 127-137) *)

Inductive timeframe_choice : Type := TF_24H | TF_7D | TF_30D | TF_90D.
Inductive update_choice : Type := UF_1min | UF_5min | UF_15min.
Inductive use_case_choice : Type := UC_General | UC_Technical | UC_Sentiment | UC_Custom.

Definition timeframe_str (t : timeframe_choice) : string :=
  match t with
  | TF_24H => "24H" | TF_7D => "7D" | TF_30D => "30D" | TF_90D => "90D"
  end.

Definition update_str (u : update_choice) : string :=
  match u with
  | UF_1min => "1min" | UF_5min => "5min" | UF_15min => "15min"
  end.

Definition use_case_str (u : use_case_choice) : string :=
  match u with
  | UC_General => "General Overview"
  | UC_Technical => "In-depth Technical Analysis"
  | UC_Sentiment => "Sentiment Focused"
  | UC_Custom => "Custom"
  end.

Record params : Type := {
  timeframe : timeframe_choice;
  top_n : Z;
  update_freq : update_choice;
  use_case : use_case_choice;
  additional_note : string
}.

(** The slider [st.slider(..., 5, 20, 10)] only yields values in 5..20. *)
Definition valid_params (p : params) : Prop := (5 ≤ top_n p ≤ 20)%Z.

Inductive month_name : Type :=
| January | February | March | April | May | June
| July | August | September | October | November | December.

Definition month_str (m : month_name) : string :=
  match m with
  | January => "January" | February => "February" | March => "March"
  | April => "April" | May => "May" | June => "June" | July => "July"
  | August => "August" | September => "September" | October => "October"
  | November => "November" | December => "December"
  end.

Record date : Type := { year : Z; month : month_name; day : Z }.

(** [datetime.now().strftime("%B %d, %Y")]. *)
Definition today_str (d : date) : string :=
  month_str (month d) +:+ " " +:+ pad2 (day d) +:+ ", " +:+ str_int (year d).

(** ** Task descriptions (lines 142-171) *)

Definition report_date_line (d : date) : string :=
  "**Report Date:** " +:+ today_str d +:+ nl.

Definition market_analysis_description (p : params) (d : date) : string :=
  report_date_line d
  +:+ "1. Analyze current market conditions and trends over the past "
  +:+ timeframe_str (timeframe p) +:+ "." +:+ nl
  +:+ "2. Focus on the top " +:+ str_int (top_n p)
  +:+ " cryptocurrencies by market cap." +:+ nl
  +:+ "3. Identify key market drivers, catalysts, and risks." +:+ nl
  +:+ "4. Evaluate overall market sentiment and momentum." +:+ nl
  +:+ "5. Generate price predictions and risk assessments.".

Definition technical_analysis_description (p : params) (d : date) : string :=
  report_date_line d
  +:+ "1. Perform technical analysis on the top " +:+ str_int (top_n p)
  +:+ " cryptocurrencies over the past " +:+ timeframe_str (timeframe p)
  +:+ "." +:+ nl
  +:+ "2. Generate trading signals and identify chart patterns." +:+ nl
  +:+ "3. Calculate key technical indicators (RSI, MACD, MA)." +:+ nl
  +:+ "4. Identify support and resistance levels." +:+ nl
  +:+ "5. Provide probability-based trade recommendations.".

Definition sentiment_task_description (p : params) (d : date) : string :=
  report_date_line d
  +:+ "1. Analyze the latest news and social media sentiment." +:+ nl
  +:+ "2. Summarize market sentiment trends over the past "
  +:+ timeframe_str (timeframe p) +:+ "." +:+ nl
  +:+ "3. Identify the impact of recent events on market sentiment.".

Definition report_generation_base (d : date) : string :=
  report_date_line d
  +:+ "1. Synthesize all previous analyses into a final, concise report." +:+ nl
  +:+ "2. Create an executive summary with key findings and actionable recommendations." +:+ nl
  +:+ "3. Highlight the most critical market insights from the data and analysis.".

(** [if additional_note: report_generation_description += ...]. *)
Definition report_generation_description (p : params) (d : date) : string :=
  match additional_note p with
  | EmptyString => report_generation_base d
  | String _ _ => report_generation_base d +:+ nl +:+ "Note: " +:+ additional_note p
  end.

(** ** Agents, tasks and the crew (lines 177-254) *)

Definition market_researcher (c : config) : Agent := {|
  role := "Senior Market Research Analyst";
  goal := "Analyze current market conditions, trends, and provide investment insights.";
  backstory :=
    "A seasoned analyst with deep knowledge of cryptocurrency markets. "
    +:+ "Expert in identifying trends and emerging opportunities through data-driven analysis.";
  tools := [SerperDevTool 5];
  llm := make_llm c;
  agent_verbose := true
|}.

Definition technical_analyst (c : config) : Agent := {|
  role := "Technical Analysis Specialist";
  goal := "Perform technical analysis and generate trading signals.";
  backstory :=
    "A quantitative analyst with expertise in technical indicators and chart patterns. "
    +:+ "Skilled in using RSI, MACD, and moving averages to provide actionable trade recommendations.";
  tools := [SerperDevTool 5];
  llm := make_llm c;
  agent_verbose := true
|}.

Definition news_analyst (c : config) : Agent := {|
  role := "Crypto News & Sentiment Analyst";
  goal := "Monitor news, social media, and overall market sentiment.";
  backstory :=
    "An expert in analyzing the impact of news and social media on crypto markets. "
    +:+ "Capable of identifying key events that drive market sentiment.";
  tools := [SerperDevTool 5];
  llm := make_llm c;
  agent_verbose := true
|}.

Definition report_writer (c : config) : Agent := {|
  role := "Financial Report Writer";
  goal := "Create comprehensive investment reports with actionable insights.";
  backstory :=
    "Experienced in crafting detailed financial reports and investment recommendations. "
    +:+ "Specializes in presenting complex analysis in a clear and concise manner.";
  tools := [SerperDevTool 10];
  llm := make_llm c;
  agent_verbose := true
|}.

Definition market_analysis (c : config) (p : params) (d : date) : Task := {|
  description := market_analysis_description p d;
  expected_output :=
    "A concise market analysis report summarizing current conditions, trends, price predictions, and risk factors.";
  agent := market_researcher c
|}.

Definition technical_analysis (c : config) (p : params) (d : date) : Task := {|
  description := technical_analysis_description p d;
  expected_output :=
    "A concise technical analysis report with key trading signals, support/resistance levels, and indicator summaries.";
  agent := technical_analyst c
|}.

Definition sentiment_task (c : config) (p : params) (d : date) : Task := {|
  description := sentiment_task_description p d;
  expected_output :=
    "A brief sentiment analysis summary including overall sentiment scores and key drivers.";
  agent := news_analyst c
|}.

Definition report_generation (c : config) (p : params) (d : date) : Task := {|
  description := report_generation_description p d;
  expected_output :=
    "A final executive report that includes an overview of the current market, "
    +:+ "key technical insights, sentiment analysis, and recommendations for top long and short-term investment opportunities.";
  agent := report_writer c
|}.

Definition crypto_crew (c : config) (p : params) (d : date) : Crew := {|
  crew_agents := [market_researcher c; technical_analyst c; news_analyst c; report_writer c];
  crew_tasks := [market_analysis c p d; technical_analysis c p d;
                 sentiment_task c p d; report_generation c p d];
  crew_verbose := true
|}.

#[export] Instance outcome_ret : MRet outcome := λ A a, Ret a.

#[export] Instance outcome_bind : MBind outcome := λ A B f o,
  match o with
  | Ret a => f a
  | Raise e => Raise e
  | Halt => Halt
  | Unmodelled => Unmodelled
  end.

(** ** Name resolution *)

(** Every name the module binds before the button handler runs: the
    imports, the configuration, the three functions, the sidebar values, the
    date, the descriptions, the agents, the tasks and the crew. *)
Definition module_globals (c : config) (p : params) (d : date) : gmap string pyval :=
  list_to_map [
    ("os", PyObj "module"); ("time", PyObj "module");
    ("datetime", PyObj "class"); ("timedelta", PyObj "class");
    ("st", PyObj "module"); ("pd", PyObj "module"); ("requests", PyObj "module");
    ("px", PyObj "module"); ("go", PyObj "module"); ("load_dotenv", PyObj "function");
    ("Task", PyObj "class"); ("Agent", PyObj "class"); ("Crew", PyObj "class");
    ("LLM", PyObj "class"); ("SerperDevTool", PyObj "class");
    ("COINMARKETCAP_API_KEY", PyStr (COINMARKETCAP_API_KEY c));
    ("GEMINI_API_KEY", PyStr (GEMINI_API_KEY c));
    ("MODEL", PyStr (MODEL c));
    ("llm", PyObj "LLM");
    ("fetch_market_data", PyObj "function");
    ("fetch_live_sentiment_data", PyObj "function");
    ("generate_sentiment_analysis", PyObj "function");
    ("timeframe", PyStr (timeframe_str (timeframe p)));
    ("top_n", PyInt (top_n p));
    ("update_freq", PyStr (update_str (update_freq p)));
    ("use_case", PyStr (use_case_str (use_case p)));
    ("additional_note", PyStr (additional_note p));
    ("today_str", PyStr (today_str d));
    ("market_analysis_description", PyStr (market_analysis_description p d));
    ("technical_analysis_description", PyStr (technical_analysis_description p d));
    ("sentiment_task_description", PyStr (sentiment_task_description p d));
    ("report_generation_description", PyStr (report_generation_description p d));
    ("market_researcher", PyObj "Agent"); ("technical_analyst", PyObj "Agent");
    ("news_analyst", PyObj "Agent"); ("report_writer", PyObj "Agent");
    ("market_analysis", PyObj "Task"); ("technical_analysis", PyObj "Task");
    ("sentiment_task", PyObj "Task"); ("report_generation", PyObj "Task");
    ("crypto_crew", PyObj "Crew")
  ].

(** The two name spaces a function body reads a free name from: the
    module's globals, then what the interpreter provides (builtins and the
    module's own attributes). *)
Record namespaces : Type := {
  ns_globals : gmap string pyval;
  ns_ambient : gmap string pyval
}.

Definition load_global (ns : namespaces) (name : string) : outcome pyval :=
  match ns_globals ns !! name with
  | Some v => Ret v
  | None =>
      match ns_ambient ns !! name with
      | Some v => Ret v
      | None => Raise (NameError name)
      end
  end.

(** ** Data fetching (lines 36-96) *)

Definition market_url : string :=
  "https://pro-api.coinmarketcap.com/v1/cryptocurrency/listings/latest".

(** The [params] dict of [fetch_market_data]. *)
Definition market_request_params : gmap string string :=
  <["start" := "1"]> (<["limit" := "20"]> (<["convert" := "USD"]>
    (<["sort" := "market_cap"]> (<["sort_dir" := "desc"]> ∅)))).

(** [requests.get]; [raise_for_status]; [response.json()]. *)
Definition requests_get_json (url : string) (headers : gmap string pyval)
    (query : gmap string string) (net : http_outcome) : M json :=
  emit (EvRequestsGet url headers query);;
  match net with
  | GetRaises e | StatusRaises e | JsonRaises e => raise e
  | JsonBody v => mret v
  end.

(** The headers are built on the line before the [try]. *)
Definition fetch_market_data (ns : namespaces) (net : http_outcome) : M json :=
  key ← lift (load_global ns "COINMARKETCAP_API");
  let headers : gmap string pyval := {["X-CMC_PRO_API_KEY" := key]} in
  try_except
    (requests_get_json market_url headers market_request_params net)
    (λ e, st_error "Error fetching market data: " (Some e);; mret empty_dict).

Definition sentiment_url : string := "https://api.alternative.me/fng/?limit=1".

(** [if "data" in data and data["data"]: return data["data"][0]
     else: return {}]. *)
Definition first_sentiment_record (data : json) : outcome json :=
  present ← py_in "data" data;
  if (present : bool) then
    field ← py_getitem data "data";
    if truthy field then
      again ← py_getitem data "data";
      py_getitem0 again
    else mret empty_dict
  else mret empty_dict.

Definition sentiment_request : event := EvRequestsGet sentiment_url ∅ ∅.

Definition fetch_live_sentiment_data (net : http_outcome) : M json :=
  try_except
    (data ← requests_get_json sentiment_url ∅ ∅ net;
     lift (first_sentiment_record data))
    (λ e, st_error "Error fetching live sentiment data: " (Some e);; mret empty_dict).

(** [str(v)] inside an f-string. *)
Definition py_str (w : world) (v : json) : string :=
  match v with
  | JStr s => s
  | JInt z => str_int z
  | JBool true => "True"
  | JBool false => "False"
  | JNull => "None"
  | _ => w_repr w v
  end.

(** [float(v)]: an integer too large for a double raises
    [OverflowError]. *)
Definition py_float (w : world) (v : json) : outcome double :=
  match v with
  | JInt z => match double_of_Z z with
              | S754_infinity _ => Raise OverflowError
              | f => Ret f
              end
  | JFloat f => Ret f
  | JBool b => Ret (double_of_Z (if b then 1 else 0))
  | JStr s => match w_float_of_str w s with
              | Some f => Ret f
              | None => Raise (ValueError "could not convert string to float")
              end
  | _ => Raise TypeError
  end.

Definition sentiment_fallback : string :=
  "Live sentiment data is currently unavailable.".

Definition generate_sentiment_analysis (w : world) : M (json * string) :=
  sentiment_data ← fetch_live_sentiment_data (w_sentiment w);
  if truthy sentiment_data then
    value ← lift (py_get_default sentiment_data "value" (JStr "N/A"));
    label ← lift (py_get_default sentiment_data "value_classification" (JStr "Unknown"));
    mret (sentiment_data,
          "The current Crypto Fear & Greed Index is **" +:+ py_str w value +:+ "** "
          +:+ "(" +:+ py_str w label +:+ "). "
          +:+ "This reflects the overall market sentiment as of now.")
  else mret (sentiment_data, sentiment_fallback).

(** ** The market table and its metrics (lines 269-294) *)

(** [coin['quote']['USD'][field]]. *)
Definition quote_usd (coin : json) (field : string) : outcome json :=
  q ← py_getitem coin "quote";
  usd ← py_getitem q "USD";
  py_getitem usd field.

Definition coin_row (coin : json) : outcome row :=
  n ← py_getitem coin "name";
  s ← py_getitem coin "symbol";
  p ← quote_usd coin "price";
  mc ← quote_usd coin "market_cap";
  v ← quote_usd coin "volume_24h";
  ch ← quote_usd coin "percent_change_24h";
  mret {| row_name := n; row_symbol := s; row_price := p;
          row_market_cap := mc; row_volume_24h := v; row_change_24h := ch |}.

Fixpoint rows_of (coins : list json) : outcome (list row) :=
  match coins with
  | [] => Ret []
  | c :: rest => r ← coin_row c; rs ← rows_of rest; mret (r :: rs)
  end.

(** [[... for coin in market_data['data']]]: a list gives its elements; a
    non-empty string or dict gives strings, and the first subscript
    [coin['name']] fails; other values cannot be iterated. *)
Definition build_rows (market_data : json) : outcome (list row) :=
  data ← py_getitem market_data "data";
  match data with
  | JArr l => rows_of l
  | JStr EmptyString => Ret []
  | JObj m => if bool_decide (m = ∅) then Ret [] else Raise TypeError
  | _ => Raise TypeError
  end.

Definition billion : double := double_of_Z 1000000000.

(** [x / y] where [x] is what a reduction gave: an integer is converted
    to a double first, which raises [OverflowError] when it is too large. *)
Definition py_truediv (x : number) (y : double) : outcome double :=
  match x with
  | NInt z => match double_of_Z z with
              | S754_infinity _ => Raise OverflowError
              | f => Ret (double_div f y)
              end
  | NFloat f => Ret (double_div f y)
  end.

(** The three values of lines 286-288. *)
Record metrics : Type := {
  total_market_cap : double;
  total_volume : double;
  avg_change : double
}.

Definition market_cap_column (df : list row) : list json := map row_market_cap df.
Definition volume_24h_column (df : list row) : list json := map row_volume_24h df.
Definition change_24h_column (df : list row) : list json := map row_change_24h df.

(** [df['market_cap'].sum() / 1e9], [df['volume_24h'].sum() / 1e9],
    [df['change_24h'].mean()], in that order. *)
Definition compute_metrics (w : world) (df : list row) : outcome metrics :=
  caps ← w_series_sum w (market_cap_column df);
  cap ← py_truediv caps billion;
  volumes ← w_series_sum w (volume_24h_column df);
  volume ← py_truediv volumes billion;
  mean ← w_series_mean w (change_24h_column df);
  mret {| total_market_cap := cap; total_volume := volume; avg_change := mean |}.

(** Two decimals of a non-negative fraction, ties to even. *)
Definition two_decimals (a : Q) : string :=
  let scaled := (a * 100)%Q in
  let n := Qfloor scaled in
  let cents :=
    match (scaled - inject_Z n ?= 1 # 2)%Q with
    | Gt => (n + 1)%Z
    | Eq => if Z.even n then n else (n + 1)%Z
    | Lt => n
    end in
  str_int (cents / 100) +:+ "." +:+ pad2 (cents mod 100).

(** The format specification [:.2f] on a double: its exact value rounded
    to two decimals, ties to even. *)
Definition format_2f (f : double) : string :=
  match f with
  | S754_zero s => (if s then "-" else "") +:+ "0.00"
  | S754_infinity s => if s then "-inf" else "inf"
  | S754_nan => "nan"
  | S754_finite s m e => (if s then "-" else "") +:+ two_decimals (double_magnitude m e)
  end.

Definition data_summary (d : date) (m : metrics) : string :=
  "**Market Summary (as of " +:+ today_str d +:+ "):**" +:+ nl +:+ nl
  +:+ "- **Total Market Cap:** $" +:+ format_2f (total_market_cap m) +:+ "B" +:+ nl
  +:+ "- **24h Volume:** $" +:+ format_2f (total_volume m) +:+ "B" +:+ nl
  +:+ "- **Average 24h Change:** " +:+ format_2f (avg_change m) +:+ "%" +:+ nl +:+ nl.

Definition recommendation_footer : string :=
  "*Recommendation:* Monitor market drivers and adjust positions as needed for both long and short-term investments.".

Definition final_report (d : date) (m : metrics) (ai_report : string) : string :=
  "### Executive Summary for " +:+ today_str d +:+ nl +:+ nl
  +:+ data_summary d m
  +:+ "**Key AI Insights:**" +:+ nl
  +:+ ai_report +:+ nl +:+ nl
  +:+ recommendation_footer.

(** ** The crew run *)

Module Orchestrator.

Inductive run_status : Type := Pending | Running | Completed | Failed.

(** The state of one run: its status, the append-only context, the
    prompt context each executed task was given (by position), and the
    role and message of the failure, if any. *)
Record run_state : Type := {
  status : run_status;
  accumulated_context : context;
  executed : list (nat * context);
  failure : option (string * string)
}.

Definition initial : run_state :=
  {| status := Pending; accumulated_context := []; executed := []; failure := None |}.

Definition start (st : run_state) : run_state :=
  {| status := Running; accumulated_context := []; executed := executed st;
     failure := failure st |}.

(** Modelled from the spec: [Crew.kickoff] is code of the crewai
    library and is missing from the sources; this is the execution
    algorithm of section 4.4.  Each task in declared order is run by its
    agent on the context accumulated so far; a success appends
    (role, output) and continues; a generation failure makes the run
    [Failed] and no further task executes; when every task completes the
    run is [Completed]. *)
Fixpoint run_tasks (run : nat → Task → context → gen_result)
    (position : nat) (tasks : list Task) (st : run_state) : run_state :=
  match tasks with
  | [] =>
      {| status := Completed; accumulated_context := accumulated_context st;
         executed := executed st; failure := failure st |}
  | t :: rest =>
      let given := accumulated_context st in
      let ran := executed st ++ [(position, given)] in
      match run position t given with
      | Generated out =>
          run_tasks run (S position) rest
            {| status := Running;
               accumulated_context := given ++ [(role (agent t), out)];
               executed := ran; failure := None |}
      | GenerationFails msg =>
          {| status := Failed; accumulated_context := given;
             executed := ran; failure := Some (role (agent t), msg) |}
      end
  end.

(** Modelled from the spec: the run over the crew's ordered tasks,
    section 4.4 steps 1 to 3. *)
Definition kickoff (run : nat → Task → context → gen_result) (c : Crew) : run_state :=
  run_tasks run 0 (crew_tasks c) (start initial).

(** Modelled from the spec: the result of a completed run is the output
    text of the final task; a failed run produces no aggregate result and
    returns the error with the role of the failing task. *)
Definition result (st : run_state) : outcome string :=
  match status st, failure st with
  | Completed, _ => Ret (default "" (snd <$> last (accumulated_context st)))
  | _, Some (who, msg) => Raise (GenerationFailed who msg)
  | _, None => Raise (LibraryError "PipelineError" "run not finished")
  end.

End Orchestrator.

Definition task_run_event (call : nat * context) : event :=
  let '(i, ctx) := call in EvTaskRun i ctx.

(** [crypto_crew.kickoff()] as the handler sees it: the tasks that were
    executed, then the result or the exception. *)
Definition crew_kickoff (w : world) (c : Crew) : M string :=
  let st := Orchestrator.kickoff (w_agent_run w) c in
  (EvKickoff :: map task_run_event (Orchestrator.executed st),
   Orchestrator.result st).

(** ** The button handler (lines 261-393) *)

(** A call into a library that shows [ev] unless it raises. *)
Definition library_call (failure : option exn) (ev : event) : M unit :=
  match failure with
  | Some e => raise e
  | None => emit ev
  end.

(** The sentiment tab (lines 356-382). *)
Definition sentiment_tab (w : world) : M unit :=
  emit (EvSubheader "Market Sentiment Analysis");;
  '(sentiment_data, sentiment_report) ← generate_sentiment_analysis w;
  (if truthy sentiment_data then
     try_except
       (value ← lift (py_get_default sentiment_data "value" (JInt 0));
        reading ← lift (py_float w value);
        library_call (w_gauge w reading) (EvPlotly "Fear & Greed Index"))
       (λ e, st_error "Error displaying gauge chart: " (Some e))
   else mret tt);;
  emit (EvMarkdown "### Sentiment Analysis Report");;
  emit (EvMarkdown sentiment_report).

Definition tab_names : list string :=
  ["Market Overview"; "Technical Analysis"; "Sentiment"; "Detailed Data"; "Final Report"].

(** Lines 289-391: the report and the five tabs.  The HTML wrappers
    around the figures are not recorded. *)
Definition show_results (w : world) (p : params) (d : date) (df : list row) (m : metrics)
    (ai_report : string) : M unit :=
  let report := final_report d m ai_report in
  emit (EvTabs tab_names);;
  emit (EvMetric "Total Market Cap" ("$" +:+ format_2f (total_market_cap m) +:+ "B"));;
  emit (EvMetric "24h Volume" ("$" +:+ format_2f (total_volume m) +:+ "B"));;
  emit (EvMetric "Avg 24h Change" (format_2f (avg_change m) +:+ "%"));;
  library_call (w_treemap w df) (EvPlotly "Market Cap Distribution");;
  library_call (w_price_chart w df (top_n p)) (EvPlotly "Price Performance (24H)");;
  sentiment_tab w;;
  emit (EvSubheader "Detailed Cryptocurrency Data");;
  library_call (w_dataframe w df) EvDataframe;;
  emit (EvMarkdown "Use the table above to sort and search for specific coins.");;
  emit (EvSubheader "Final Executive Report");;
  emit (EvMarkdown report).

(** Lines 264-391: the handler once [fetch_market_data] has returned. *)
Definition analyse (c : config) (p : params) (d : date) (w : world) (market_data : json) : M unit :=
  records ← lift (py_get market_data "data");
  if negb (truthy records) then
    st_error "No market data returned from API." None;;
    st_stop
  else
    df ← lift (build_rows market_data);
    ai_report ← try_except
      (crew_kickoff w (crypto_crew c p d))
      (λ e, st_error "Error during AI analysis: " (Some e);; st_stop);
    m ← lift (compute_metrics w df);
    show_results w p d df m ai_report.

(** The body of [if st.button("Generate Analysis"):]. *)
Definition generate_analysis (ns : namespaces) (c : config) (p : params) (d : date)
    (w : world) : M unit :=
  emit (EvSpinner "Fetching current market data and generating today's report...");;
  market_data ← fetch_market_data ns (w_market w);
  analyse c p d w market_data.

(** The page: the handler when the button was pressed, the hint otherwise. *)
Definition page (pressed : bool) (ns : namespaces) (c : config) (p : params) (d : date)
    (w : world) : M unit :=
  if pressed then generate_analysis ns c p d w
  else emit (EvInfo "Click 'Generate Analysis' to generate today's AI-powered market analysis.").

(** The name spaces of the module as shipped, for any interpreter-provided
    names. *)
Definition shipped (c : config) (p : params) (d : date) (ambient : gmap string pyval) : namespaces :=
  {| ns_globals := module_globals c p d; ns_ambient := ambient |}.

(** * Verification *)

(** ** Sample inputs *)

Definition sample_config : config :=
  {| COINMARKETCAP_API_KEY := "cmc-key"; GEMINI_API_KEY := "gem-key"; MODEL := "gemini/flash" |}.

Definition sample_params : params :=
  {| timeframe := TF_24H; top_n := 10; update_freq := UF_1min;
     use_case := UC_General; additional_note := "" |}.

Definition sample_params_note : params :=
  {| timeframe := TF_24H; top_n := 10; update_freq := UF_1min;
     use_case := UC_General; additional_note := "Focus on Ethereum" |}.

Definition sample_date : date := {| year := 2026; month := November; day := 4 |}.

(** Interpreter-provided names the script uses. *)
Definition sample_ambient : gmap string pyval :=
  list_to_map [("float", PyObj "class"); ("list", PyObj "class"); ("range", PyObj "class");
               ("Exception", PyObj "class"); ("ValueError", PyObj "class");
               ("__name__", PyStr "__main__")].

Definition sample_quote (cap vol change : Z) : json :=
  JObj {[ "USD" := JObj (list_to_map [("price", JFloat (double_of_Z 1));
                                       ("market_cap", JFloat (double_of_Z cap));
                                       ("volume_24h", JFloat (double_of_Z vol));
                                       ("percent_change_24h", JFloat (double_of_Z change))]) ]}.

Definition sample_coin (nm sym : string) (cap vol change : Z) : json :=
  JObj (list_to_map [("name", JStr nm); ("symbol", JStr sym);
                     ("quote", sample_quote cap vol change)]).

Definition sample_market_data : json :=
  JObj {[ "data" := JArr [sample_coin "Alpha" "AAA" 100 30 2;
                          sample_coin "Beta" "BBB" 50 20 (-4)] ]}.

Definition sample_rows : list row :=
  [ {| row_name := JStr "Alpha"; row_symbol := JStr "AAA"; row_price := JFloat (double_of_Z 1);
       row_market_cap := JFloat (double_of_Z 100); row_volume_24h := JFloat (double_of_Z 30);
       row_change_24h := JFloat (double_of_Z 2) |};
    {| row_name := JStr "Beta"; row_symbol := JStr "BBB"; row_price := JFloat (double_of_Z 1);
       row_market_cap := JFloat (double_of_Z 50); row_volume_24h := JFloat (double_of_Z 20);
       row_change_24h := JFloat (double_of_Z (-4)) |} ].

Definition sample_sentiment : json :=
  JObj {[ "data" := JArr [JObj (list_to_map [("value", JStr "45");
                                             ("value_classification", JStr "Fear")])] ]}.

(** A pandas for the sample worlds: it adds the doubles of a column from
    left to right, and divides the sum by the length for the mean. *)
Definition as_double (v : json) : option double :=
  match v with
  | JInt z => Some (double_of_Z z)
  | JFloat f => Some f
  | _ => None
  end.

Definition sample_sum (column : list json) : outcome number :=
  match mapM as_double column with
  | Some xs => Ret (NFloat (fold_left (SFadd double_prec double_emax) xs (S754_zero false)))
  | None => Unmodelled
  end.

Definition sample_mean (column : list json) : outcome double :=
  s ← sample_sum column;
  py_truediv s (double_of_Z (Z.of_nat (length column))).

Definition sample_float_of_str (s : string) : option double :=
  if String.eqb s "45" then Some (double_of_Z 45) else None.

(** A language model that answers every task, whatever its description,
    and libraries that never raise. *)
Definition sample_world : world :=
  {| w_market := JsonBody sample_market_data;
     w_sentiment := GetRaises (LibraryError "ConnectionError" "unreachable");
     w_agent_run := λ i _ _, Generated ("output " +:+ str_int (Z.of_nat i));
     w_repr := λ _, "<repr>";
     w_float_of_str := sample_float_of_str;
     w_series_sum := sample_sum;
     w_series_mean := sample_mean;
     w_treemap := λ _, None;
     w_price_chart := λ _ _, None;
     w_gauge := λ _, None;
     w_dataframe := λ _, None |}.

(** A language model whose third call fails. *)
Definition failing_world : world :=
  {| w_market := JsonBody sample_market_data;
     w_sentiment := JsonBody sample_sentiment;
     w_agent_run := λ i _ _, if Nat.eqb i 2 then GenerationFails "quota exceeded"
                             else Generated ("output " +:+ str_int (Z.of_nat i));
     w_repr := λ _, "<repr>";
     w_float_of_str := sample_float_of_str;
     w_series_sum := sample_sum;
     w_series_mean := sample_mean;
     w_treemap := λ _, None;
     w_price_chart := λ _ _, None;
     w_gauge := λ _, None;
     w_dataframe := λ _, None |}.

(** A sentiment source whose first record is a number, not a dict. *)
Definition numeric_sentiment_world : world :=
  {| w_market := JsonBody sample_market_data;
     w_sentiment := JsonBody (JObj {[ "data" := JArr [JInt 5] ]});
     w_agent_run := λ i _ _, Generated ("output " +:+ str_int (Z.of_nat i));
     w_repr := λ _, "<repr>";
     w_float_of_str := λ _, None;
     w_series_sum := sample_sum;
     w_series_mean := sample_mean;
     w_treemap := λ _, None;
     w_price_chart := λ _ _, None;
     w_gauge := λ _, None;
     w_dataframe := λ _, None |}.

(** A sentiment body whose "data" entry is a string, not a list. *)
Definition string_sentiment_body : json := JObj {[ "data" := JStr "abc" ]}.

(** A market source that answers with an empty listing. *)
Definition empty_market_world : world :=
  {| w_market := JsonBody (JObj {[ "data" := JArr [] ]});
     w_sentiment := JsonBody sample_sentiment;
     w_agent_run := λ i _ _, Generated ("output " +:+ str_int (Z.of_nat i));
     w_repr := λ _, "<repr>";
     w_float_of_str := sample_float_of_str;
     w_series_sum := sample_sum;
     w_series_mean := sample_mean;
     w_treemap := λ _, None;
     w_price_chart := λ _ _, None;
     w_gauge := λ _, None;
     w_dataframe := λ _, None |}.

(** What the sample pandas gives on the sample table. *)
Definition sample_metrics : metrics :=
  {| total_market_cap := double_div (double_of_Z 150) billion;
     total_volume := double_div (double_of_Z 50) billion;
     avg_change := double_of_Z (-1) |}.

(** ** Vocabulary of the statements *)

(** A listing whose second coin has no "symbol". *)
Definition sample_bad_market_data : json :=
  JObj {[ "data" := JArr [sample_coin "Alpha" "AAA" 100 30 2;
                          JObj (list_to_map [("name", JStr "Beta");
                                             ("quote", sample_quote 50 20 (-4))])] ]}.

(** An environment in which only the CoinMarketCap key is set. *)
Definition sample_getenv (name : string) : option string :=
  if String.eqb name "COINMARKETCAP_API_KEY" then Some "cmc-key" else None.

(** [os.getenv(name)] gave nothing usable: unset, or the empty string. *)
Definition unset (getenv : string → option string) (name : string) : Prop :=
  getenv name = None ∨ getenv name = Some "".

Definition missing_variable (name : string) : exn :=
  ValueError ("Missing environment variable: " +:+ name).

Definition market_error (e : exn) : event :=
  EvError "Error fetching market data: " (Some e).

Definition gauge_error (e : exn) : event :=
  EvError "Error displaying gauge chart: " (Some e).

(** What the three calls of the [try] raise, if they raise. *)
Definition raised_by (net : http_outcome) : option exn :=
  match net with
  | GetRaises e | StatusRaises e | JsonRaises e => Some e
  | JsonBody _ => None
  end.

Definition sentiment_error (e : exn) : event :=
  EvError "Error fetching live sentiment data: " (Some e).

Definition analysis_error (e : exn) : event :=
  EvError "Error during AI analysis: " (Some e).


Definition report_title (d : date) : string :=
  "### Executive Summary for " +:+ today_str d +:+ nl +:+ nl.

Definition insights_label : string := "**Key AI Insights:**" +:+ nl.

(** What holds of a run state at every moment: the task executed in
    position [i] was the [i]-th and was given the first [i] entries of the
    context, and entry [i] of the context is what the agent of task [i]
    generated on those first [i] entries. *)
Definition consistent (run : nat → Task → context → gen_result) (all : list Task)
    (st : Orchestrator.run_state) : Prop :=
  (∀ i j ctx, Orchestrator.executed st !! i = Some (j, ctx) →
              j = i ∧ ctx = take i (Orchestrator.accumulated_context st))
  ∧ (∀ i who out, Orchestrator.accumulated_context st !! i = Some (who, out) →
                  ∃ t, all !! i = Some t ∧ who = role (agent t)
                       ∧ run i t (take i (Orchestrator.accumulated_context st)) = Generated out).

(** How a run ends: every task ran, or the task after the last output
    failed and nothing ran after it. *)
Definition finished (run : nat → Task → context → gen_result) (all : list Task)
    (st : Orchestrator.run_state) : Prop :=
  (Orchestrator.status st = Orchestrator.Completed
   ∧ length (Orchestrator.accumulated_context st) = length all
   ∧ length (Orchestrator.executed st) = length all)
  ∨ (Orchestrator.status st = Orchestrator.Failed
     ∧ length (Orchestrator.executed st) = S (length (Orchestrator.accumulated_context st))
     ∧ ∃ t msg, all !! length (Orchestrator.accumulated_context st) = Some t
                ∧ run (length (Orchestrator.accumulated_context st)) t (Orchestrator.accumulated_context st)
                  = GenerationFails msg
                ∧ Orchestrator.failure st = Some (role (agent t), msg)).

(** ** Substrings *)

Lemma prefix_nil (t : string) : String.prefix "" t = true.
Proof. now destruct t. Qed.

Lemma prefix_append (s t : string) : String.prefix s (s +:+ t) = true.
Proof.
  induction s as [|a s IH]; simpl.
  - apply prefix_nil.
  - destruct (ascii_dec a a) as [_|ne]; [exact IH | contradiction].
Qed.

Lemma prefix_append_l (n a b : string) :
  String.prefix n a = true → String.prefix n (a +:+ b) = true.
Proof.
  revert a. induction n as [|x n IH]; intros a H.
  - apply prefix_nil.
  - destruct a as [|y a]; [discriminate|].
    change (String y a +:+ b) with (String y (a +:+ b)).
    cbn [String.prefix] in *.
    destruct (ascii_dec x y); [auto | discriminate].
Qed.

Lemma contains_nil (t : string) : contains "" t = true.
Proof. destruct t; reflexivity. Qed.

Lemma contains_here (s t : string) : contains s (s +:+ t) = true.
Proof.
  destruct s as [|a s].
  - apply contains_nil.
  - change (String a s +:+ t) with (String a (s +:+ t)).
    cbn [contains].
    change (String a (s +:+ t)) with (String a s +:+ t).
    now rewrite prefix_append.
Qed.

Lemma contains_skip (n a b : string) :
  contains n b = true → contains n (a +:+ b) = true.
Proof.
  intros H. induction a as [|x a IH].
  - exact H.
  - change (String x a +:+ b) with (String x (a +:+ b)).
    cbn [contains]. rewrite IH.
    now destruct (String.prefix n (String x (a +:+ b))).
Qed.

Lemma contains_keep (n a b : string) :
  contains n a = true → contains n (a +:+ b) = true.
Proof.
  induction a as [|x a IH]; intros H.
  - destruct n as [|c n]; [apply contains_nil | discriminate].
  - change (String x a +:+ b) with (String x (a +:+ b)).
    cbn [contains] in *.
    destruct (String.prefix n (String x a)) eqn:E.
    + change (String x (a +:+ b)) with (String x a +:+ b).
      now rewrite (prefix_append_l _ _ _ E).
    + rewrite (IH H). now destruct (String.prefix n (String x (a +:+ b))).
Qed.

Lemma append_nil_r (s : string) : s +:+ "" = s.
Proof.
  induction s as [|c r IH]; [reflexivity|].
  change (String c r +:+ "") with (String c (r +:+ "")). now rewrite IH.
Qed.

Lemma contains_self (s : string) : contains s s = true.
Proof. rewrite <- (append_nil_r s) at 2. apply contains_here. Qed.

(** Search a piece through a chain of concatenations. *)
Ltac find_piece :=
  solve [ apply contains_here
        | apply contains_self
        | apply contains_skip; find_piece
        | apply contains_keep; find_piece ].

Create HintDb pieces.
#[export] Hint Extern 1 (contains _ _ = true) => find_piece : pieces.

Lemma date_in_report_date_line (d : date) (rest : string) :
  contains (today_str d) (report_date_line d +:+ rest) = true.
Proof. unfold report_date_line. find_piece. Qed.

(** ** Task construction *)

Lemma report_generation_description_date (p : params) (d : date) :
  contains (today_str d) (report_generation_description p d) = true.
Proof.
  unfold report_generation_description.
  destruct (additional_note p); [|apply contains_keep];
    apply date_in_report_date_line.
Qed.

Lemma report_generation_description_note (p : params) (d : date) :
  contains (additional_note p) (report_generation_description p d) = true.
Proof.
  unfold report_generation_description.
  destruct (additional_note p) as [|a s] eqn:E.
  - apply contains_nil.
  - find_piece.
Qed.

(** C2 as stated fails: with the 24H timeframe and 10 coins
    the report-generation description carries neither value. *)
Lemma not_every_description_has_timeframe_and_count :
  ¬ (∀ t, t ∈ crew_tasks (crypto_crew sample_config sample_params sample_date) →
          contains (today_str sample_date) (description t) = true
          ∧ contains (timeframe_str (timeframe sample_params)) (description t) = true
          ∧ contains (str_int (top_n sample_params)) (description t) = true).
Proof.
  intros H.
  destruct (H (report_generation sample_config sample_params sample_date)) as (_ & Htf & _).
  - apply (list_elem_of_lookup_2 _ 3). reflexivity.
  - vm_compute in Htf. discriminate.
Qed.

(** C2 (amended): the crew has exactly 4 tasks; every description
    contains the current date; the market and the technical descriptions
    contain the timeframe and the coin count, the sentiment description the
    timeframe only (it does not depend on the coin count), and the
    report-generation description depends on the date and the note alone. *)
Theorem task_descriptions_embed_parameters (c : config) (p : params) (d : date) :
  let tasks := crew_tasks (crypto_crew c p d) in
  length tasks = 4
  ∧ Forall (λ t, contains (today_str d) (description t) = true) tasks
  ∧ contains (timeframe_str (timeframe p)) (description (market_analysis c p d)) = true
  ∧ contains (str_int (top_n p)) (description (market_analysis c p d)) = true
  ∧ contains (timeframe_str (timeframe p)) (description (technical_analysis c p d)) = true
  ∧ contains (str_int (top_n p)) (description (technical_analysis c p d)) = true
  ∧ contains (timeframe_str (timeframe p)) (description (sentiment_task c p d)) = true
  ∧ (∀ p', timeframe p' = timeframe p →
           description (sentiment_task c p' d) = description (sentiment_task c p d))
  ∧ (∀ p', additional_note p' = additional_note p →
           description (report_generation c p' d) = description (report_generation c p d)).
Proof.
  cbn zeta. split; [reflexivity|]. split.
  - cbn [crew_tasks crypto_crew].
    repeat constructor; cbn [description market_analysis technical_analysis
                             sentiment_task report_generation].
    + apply date_in_report_date_line.
    + apply date_in_report_date_line.
    + apply date_in_report_date_line.
    + apply report_generation_description_date.
  - cbn [description market_analysis technical_analysis sentiment_task report_generation].
    unfold market_analysis_description, technical_analysis_description,
      sentiment_task_description, report_generation_description.
    repeat split; auto with pieces.
    + intros p' ->. reflexivity.
    + intros p' ->. reflexivity.
Qed.

(** ** The market-data request *)

Lemma str_int_20 (n : Z) : (5 ≤ n ≤ 20)%Z → str_int n = "20" → n = 20%Z.
Proof.
  intros Hn H.
  assert (n = 5 ∨ n = 6 ∨ n = 7 ∨ n = 8 ∨ n = 9 ∨ n = 10 ∨ n = 11 ∨ n = 12 ∨ n = 13
          ∨ n = 14 ∨ n = 15 ∨ n = 16 ∨ n = 17 ∨ n = 18 ∨ n = 19 ∨ n = 20)%Z
    as Hcases by lia.
  repeat (destruct Hcases as [-> | Hcases]; [vm_compute in H; discriminate|]).
  exact Hcases.
Qed.

(** Every call of [requests.get] made by [fetch_market_data] carries the
    fixed URL and the fixed query. *)
Lemma fetch_market_data_request (ns : namespaces) (net : http_outcome)
    (url : string) (headers : gmap string pyval) (query : gmap string string) :
  EvRequestsGet url headers query ∈ trace_of (fetch_market_data ns net) →
  url = market_url ∧ query = market_request_params.
Proof.
  unfold fetch_market_data.
  destruct (load_global ns "COINMARKETCAP_API") as [key| | |]; cbn;
    try (intros H; apply elem_of_nil in H; contradiction).
  destruct net; cbn; intros H;
    repeat (apply elem_of_cons in H as [H|H]; [try discriminate; injection H as -> _ ->; auto|]);
    apply elem_of_nil in H; contradiction.
Qed.

(** C5 as stated fails: with 10 coins selected the request
    does not ask for 10. *)
Lemma request_limit_is_not_coin_count :
  valid_params sample_params
  ∧ market_request_params !! "limit" ≠ Some (str_int (top_n sample_params)).
Proof. split; [unfold valid_params; simpl; lia | vm_compute; discriminate]. Qed.

(** C5 (amended): the request asks for the coins from rank 1 sorted by
    descending market capitalization in USD, with the fixed limit 20; the
    limit is the caller's coin count only when that count is 20, and every
    request the function sends carries this query. *)
Theorem market_request_is_top_20 (p : params) :
  valid_params p →
  market_request_params !! "start" = Some "1"
  ∧ market_request_params !! "limit" = Some "20"
  ∧ market_request_params !! "convert" = Some "USD"
  ∧ market_request_params !! "sort" = Some "market_cap"
  ∧ market_request_params !! "sort_dir" = Some "desc"
  ∧ (market_request_params !! "limit" = Some (str_int (top_n p)) ↔ top_n p = 20%Z)
  ∧ (∀ ns net url headers query,
       EvRequestsGet url headers query ∈ trace_of (fetch_market_data ns net) →
       url = market_url ∧ query = market_request_params).
Proof.
  intros Hp. repeat split; try reflexivity.
  - intros H. apply (str_int_20 _ Hp).
    change (market_request_params !! "limit") with (Some "20") in H. congruence.
  - intros ->. reflexivity.
  - eapply fetch_market_data_request; eassumption.
  - eapply fetch_market_data_request; eassumption.
Qed.

Lemma market_request_is_top_20_witness :
  valid_params sample_params
  ∧ market_request_params !! "limit" = Some "20".
Proof.
  assert (Hp : valid_params sample_params) by (unfold valid_params; simpl; lia).
  split; [exact Hp|].
  exact (proj1 (proj2 (market_request_is_top_20 sample_params Hp))).
Defined.

(** ** The undefined name in [fetch_market_data] *)

(** The module binds [COINMARKETCAP_API_KEY], never [COINMARKETCAP_API]. *)
Lemma module_globals_lack_api (c : config) (p : params) (d : date) :
  module_globals c p d !! "COINMARKETCAP_API" = None
  ∧ module_globals c p d !! "COINMARKETCAP_API_KEY" = Some (PyStr (COINMARKETCAP_API_KEY c)).
Proof. split; reflexivity. Qed.

Lemma load_api_shipped (c : config) (p : params) (d : date) (ambient : gmap string pyval) :
  ambient !! "COINMARKETCAP_API" = None →
  load_global (shipped c p d ambient) "COINMARKETCAP_API"
  = Raise (NameError "COINMARKETCAP_API").
Proof.
  intros H. unfold load_global, shipped; cbn [ns_globals ns_ambient].
  rewrite (proj1 (module_globals_lack_api c p d)), H. reflexivity.
Qed.

(** An error raised inside the [try] is reported and turned into [{}]. *)
Lemma fetch_market_data_caught (ns : namespaces) (key : pyval) (net : http_outcome) (e : exn) :
  load_global ns "COINMARKETCAP_API" = Ret key →
  net = GetRaises e ∨ net = StatusRaises e ∨ net = JsonRaises e →
  fetch_market_data ns net
  = ([EvRequestsGet market_url {["X-CMC_PRO_API_KEY" := key]} market_request_params;
      EvError "Error fetching market data: " (Some e)],
     Ret empty_dict).
Proof.
  intros Hkey Hnet. unfold fetch_market_data. rewrite Hkey.
  destruct Hnet as [-> | [-> | ->]]; reflexivity.
Qed.

(** C1 as stated fails: in the module as shipped the call
    does not return the empty dict, and the handler does not report that no
    market data was returned. *)
Lemma fetch_market_data_does_not_return_empty_dict :
  outcome_of (fetch_market_data
                (shipped sample_config sample_params sample_date sample_ambient)
                (w_market sample_world))
  ≠ Ret empty_dict
  ∧ EvError "No market data returned from API." None
    ∉ trace_of (generate_analysis
                  (shipped sample_config sample_params sample_date sample_ambient)
                  sample_config sample_params sample_date sample_world).
Proof.
  split.
  - vm_compute. discriminate.
  - intros H. vm_compute in H.
    apply elem_of_cons in H as [H|H]; [discriminate|].
    apply elem_of_nil in H. exact H.
Qed.

(** C1 (amended): in the module as shipped every call of
    [fetch_market_data] raises [NameError] for [COINMARKETCAP_API] before any
    request is sent; the headers are built before the [try], so the blanket
    [except] does not catch it and no empty dict is returned; the handler
    propagates the error and reaches neither the "No market data returned"
    abort nor the crew. *)
Theorem fetch_market_data_raises_name_error (c : config) (p : params) (d : date)
    (ambient : gmap string pyval) (w : world) :
  ambient !! "COINMARKETCAP_API" = None →
  fetch_market_data (shipped c p d ambient) (w_market w)
  = ([], Raise (NameError "COINMARKETCAP_API"))
  ∧ generate_analysis (shipped c p d ambient) c p d w
    = ([EvSpinner "Fetching current market data and generating today's report..."],
       Raise (NameError "COINMARKETCAP_API")).
Proof.
  intros H.
  assert (fetch_market_data (shipped c p d ambient) (w_market w)
          = ([], Raise (NameError "COINMARKETCAP_API"))) as Hfetch.
  { unfold fetch_market_data. rewrite (load_api_shipped c p d ambient H). reflexivity. }
  split; [exact Hfetch|].
  unfold generate_analysis. rewrite Hfetch. reflexivity.
Qed.

Lemma fetch_market_data_raises_name_error_witness :
  sample_ambient !! "COINMARKETCAP_API" = None
  ∧ fetch_market_data (shipped sample_config sample_params sample_date sample_ambient)
      (w_market sample_world)
    = ([], Raise (NameError "COINMARKETCAP_API")).
Proof.
  split; [reflexivity|].
  exact (proj1 (fetch_market_data_raises_name_error sample_config sample_params sample_date
                  sample_ambient sample_world eq_refl)).
Defined.

(** ** The sentiment source *)

Lemma first_sentiment_record_dict (m : gmap string json) :
  first_sentiment_record (JObj m)
  = match m !! "data" with
    | Some f => if truthy f then py_getitem0 f else Ret empty_dict
    | None => Ret empty_dict
    end.
Proof.
  unfold first_sentiment_record. cbn.
  destruct (m !! "data") as [f|]; cbn; [|reflexivity].
  destruct (truthy f); reflexivity.
Qed.

(** A body that is not an object never yields a record. *)
Lemma first_sentiment_record_other (data : json) :
  (∀ m, data ≠ JObj m) →
  first_sentiment_record data = Ret empty_dict
  ∨ first_sentiment_record data = Raise TypeError.
Proof.
  intros Hobj. unfold first_sentiment_record.
  destruct data as [ |b|z|q|s|l|m]; cbn; auto.
  - destruct (contains "data" s); cbn; auto.
  - destruct (existsb (is_str "data") l); cbn; auto.
  - now destruct (Hobj m).
Qed.

(** Case analysis on a body that is visibly not an object. *)
Ltac not_object k :=
  match goal with
  | _ : context [first_sentiment_record ?d] |- _ =>
      let E := fresh "E" in
      destruct (first_sentiment_record_other d) as [E | E]; [discriminate | k E | k E]
  | |- context [first_sentiment_record ?d] =>
      let E := fresh "E" in
      destruct (first_sentiment_record_other d) as [E | E]; [discriminate | k E | k E]
  end.

(** The first element of a truthy value, when it has one. *)
Lemma py_getitem0_truthy (f v : json) :
  truthy f = true → py_getitem0 f = Ret v →
  (∃ rs, f = JArr (v :: rs)) ∨ (∃ c s, f = JStr (String c s) ∧ v = JStr (String c "")).
Proof.
  intros Ht H. destruct f as [ |b|z|q|s|l|m]; cbn in *; try discriminate.
  - destruct s as [|c s]; [discriminate|]. injection H as <-. right. eauto.
  - destruct l as [|x l]; [discriminate|]. injection H as <-. left. eauto.
Qed.

Lemma fetch_live_sentiment_data_body (v : json) :
  fetch_live_sentiment_data (JsonBody v)
  = match first_sentiment_record v with
    | Raise e => ([sentiment_request; sentiment_error e], Ret empty_dict)
    | other => ([sentiment_request], other)
    end.
Proof.
  unfold fetch_live_sentiment_data. cbn.
  destruct (first_sentiment_record v); reflexivity.
Qed.

Lemma fetch_live_sentiment_data_raises (net : http_outcome) (e : exn) :
  net = GetRaises e ∨ net = StatusRaises e ∨ net = JsonRaises e →
  fetch_live_sentiment_data net = ([sentiment_request; sentiment_error e], Ret empty_dict).
Proof. intros [-> | [-> | ->]]; reflexivity. Qed.

(** [first_sentiment_record] returns or raises; it never stops the script. *)
Lemma first_sentiment_record_total (data : json) :
  (∃ v, first_sentiment_record data = Ret v) ∨ (∃ e, first_sentiment_record data = Raise e).
Proof.
  destruct data as [ |b|z|q|s|l|m]; try (not_object ltac:(fun E => rewrite E); eauto).
  rewrite first_sentiment_record_dict.
  destruct (m !! "data") as [f|]; [|eauto].
  destruct (truthy f); [|eauto].
  destruct f as [ |b|z|q|s|l|m']; cbn; eauto.
  - destruct s; eauto.
  - destruct l; eauto.
Qed.

(** Whatever the network does, the call returns, and its trace is the
    request followed by at most one error message. *)
Lemma fetch_live_sentiment_data_returns (net : http_outcome) :
  ∃ v, fetch_live_sentiment_data net = ([sentiment_request], Ret v)
       ∨ (v = empty_dict
          ∧ ∃ e, fetch_live_sentiment_data net = ([sentiment_request; sentiment_error e], Ret v)).
Proof.
  destruct net as [e|e|e|v];
    try (exists empty_dict; right; split; [reflexivity|]; exists e; reflexivity).
  rewrite fetch_live_sentiment_data_body.
  destruct (first_sentiment_record_total v) as [[x ->] | [e ->]].
  - exists x. now left.
  - exists empty_dict. right. eauto.
Qed.

(** C10 as stated fails: when the "data" entry is the string "abc", not a
    list, the call returns its first character, which is neither the empty
    dict nor the first record of a list. *)
Lemma string_data_gives_first_character :
  fetch_live_sentiment_data (JsonBody string_sentiment_body)
  = ([sentiment_request], Ret (JStr "a"))
  ∧ JStr "a" ≠ empty_dict
  ∧ ¬ (∃ m l, string_sentiment_body = JObj m ∧ m !! "data" = Some (JArr l)).
Proof.
  split; [reflexivity|]. split; [discriminate|].
  intros (m & l & Hm & Hl). injection Hm as <-. vm_compute in Hl. discriminate.
Qed.

(** C10 (amended): [fetch_live_sentiment_data] never raises; a transport
    error, a status that [raise_for_status] rejects, a body that is not JSON,
    and a missing or empty "data" field all give the empty dict; a non-empty
    "data" list gives its first record; and a result other than the empty
    dict is the first record of a non-empty "data" list or the first
    character of a non-empty "data" string. *)
Theorem fetch_live_sentiment_data_never_raises (net : http_outcome) :
  (∃ t v, fetch_live_sentiment_data net = (t, Ret v))
  ∧ (∀ e, net = GetRaises e ∨ net = StatusRaises e ∨ net = JsonRaises e →
          fetch_live_sentiment_data net
          = ([sentiment_request; sentiment_error e], Ret empty_dict))
  ∧ (∀ m, net = JsonBody (JObj m) → m !! "data" = None →
          fetch_live_sentiment_data net = ([sentiment_request], Ret empty_dict))
  ∧ (∀ m f, net = JsonBody (JObj m) → m !! "data" = Some f → truthy f = false →
            fetch_live_sentiment_data net = ([sentiment_request], Ret empty_dict))
  ∧ (∀ m r rs, net = JsonBody (JObj m) → m !! "data" = Some (JArr (r :: rs)) →
               fetch_live_sentiment_data net = ([sentiment_request], Ret r))
  ∧ (∀ v, outcome_of (fetch_live_sentiment_data net) = Ret v → v ≠ empty_dict →
          ∃ m f, net = JsonBody (JObj m) ∧ m !! "data" = Some f ∧ truthy f = true
                 ∧ ((∃ rs, f = JArr (v :: rs))
                    ∨ (∃ c s, f = JStr (String c s) ∧ v = JStr (String c "")))).
Proof.
  split; [|split; [|split; [|split; [|split]]]].
  - destruct (fetch_live_sentiment_data_returns net) as [v [H | [_ [e H]]]]; eauto.
  - apply fetch_live_sentiment_data_raises.
  - intros m -> Hm.
    now rewrite fetch_live_sentiment_data_body, first_sentiment_record_dict, Hm.
  - intros m f -> Hm Hf.
    now rewrite fetch_live_sentiment_data_body, first_sentiment_record_dict, Hm, Hf.
  - intros m r rs -> Hm.
    now rewrite fetch_live_sentiment_data_body, first_sentiment_record_dict, Hm.
  - intros v Hv Hne. destruct net as [e|e|e|body]; try (cbn in Hv; congruence).
    rewrite fetch_live_sentiment_data_body in Hv.
    destruct body as [ |b|z|q|s|l|m];
      try (not_object ltac:(fun E => rewrite E in Hv); cbn in Hv; congruence).
    rewrite first_sentiment_record_dict in Hv.
    destruct (m !! "data") as [f|] eqn:Hm; [|cbn in Hv; congruence].
    destruct (truthy f) eqn:Hf; [|cbn in Hv; congruence].
    exists m, f. split; [reflexivity|]. split; [exact Hm|]. split; [exact Hf|].
    apply py_getitem0_truthy; [exact Hf|].
    destruct (py_getitem0 f); cbn in Hv; congruence.
Qed.

(** ** The sentiment report and its tab *)

Lemma generate_sentiment_analysis_fallback (w : world) (t : list event) (v : json) :
  fetch_live_sentiment_data (w_sentiment w) = (t, Ret v) → truthy v = false →
  generate_sentiment_analysis w = (t ++ [], Ret (v, sentiment_fallback)).
Proof.
  intros Hfetch Hv. unfold generate_sentiment_analysis.
  rewrite Hfetch. cbn. rewrite Hv. reflexivity.
Qed.

(** C7 as stated fails: when the first sentiment record is the number 5,
    unusable data, the tab raises [AttributeError] and the fallback text is
    not shown. *)
Lemma unusable_sentiment_record_raises :
  fetch_live_sentiment_data (w_sentiment numeric_sentiment_world)
  = ([sentiment_request], Ret (JInt 5))
  ∧ outcome_of (generate_sentiment_analysis numeric_sentiment_world)
    = Raise (AttributeError "get")
  ∧ outcome_of (sentiment_tab numeric_sentiment_world) = Raise (AttributeError "get")
  ∧ (EvMarkdown sentiment_fallback ∉ trace_of (sentiment_tab numeric_sentiment_world)).
Proof.
  repeat split. intros Hin. vm_compute in Hin.
  repeat (apply elem_of_cons in Hin as [Hin | Hin]; [discriminate|]).
  now apply elem_of_nil in Hin.
Qed.

(** C7 (amended): when the sentiment fetch returns a falsy value (the
    empty dict of every failure, or a falsy first record), the report is the
    fixed fallback text, the tab shows the heading and that text without a
    gauge chart, and the tab returns normally. *)
Theorem missing_sentiment_falls_back (w : world) (t : list event) (v : json) :
  fetch_live_sentiment_data (w_sentiment w) = (t, Ret v) →
  truthy v = false →
  generate_sentiment_analysis w = (t, Ret (v, sentiment_fallback))
  ∧ sentiment_tab w
    = (EvSubheader "Market Sentiment Analysis"
         :: t ++ [EvMarkdown "### Sentiment Analysis Report"; EvMarkdown sentiment_fallback],
       Ret tt)
  ∧ (∀ title, EvPlotly title ∉ trace_of (sentiment_tab w)).
Proof.
  intros Hfetch Hv.
  pose proof (generate_sentiment_analysis_fallback w t v Hfetch Hv) as Hgen.
  rewrite app_nil_r in Hgen.
  assert (sentiment_tab w
          = (EvSubheader "Market Sentiment Analysis"
               :: t ++ [EvMarkdown "### Sentiment Analysis Report";
                        EvMarkdown sentiment_fallback], Ret tt)) as Htab.
  { unfold sentiment_tab. rewrite Hgen. cbn. rewrite Hv. reflexivity. }
  split; [exact Hgen|]. split; [exact Htab|].
  intros title Hin. rewrite Htab in Hin. cbn in Hin.
  apply elem_of_cons in Hin as [Hin|Hin]; [discriminate|].
  apply elem_of_app in Hin as [Hin|Hin].
  - destruct (fetch_live_sentiment_data_returns (w_sentiment w)) as [x [H | [_ [e H]]]];
      rewrite H in Hfetch; injection Hfetch as <- _;
      repeat (apply elem_of_cons in Hin as [Hin|Hin]; [discriminate|]);
      now apply elem_of_nil in Hin.
  - repeat (apply elem_of_cons in Hin as [Hin|Hin]; [discriminate|]).
    now apply elem_of_nil in Hin.
Qed.

Lemma missing_sentiment_falls_back_witness :
  generate_sentiment_analysis sample_world
  = ([sentiment_request; sentiment_error (LibraryError "ConnectionError" "unreachable")],
     Ret (empty_dict, sentiment_fallback)).
Proof.
  exact (proj1 (missing_sentiment_falls_back sample_world
                  [sentiment_request;
                   sentiment_error (LibraryError "ConnectionError" "unreachable")]
                  empty_dict eq_refl eq_refl)).
Defined.

(** ** The crew run: order, context and failure *)

Section RunTasks.

Import Orchestrator.

Variable run : nat → Task → context → gen_result.
Variable all : list Task.

Lemma consistent_step (st : run_state) (t : Task) (ran : list (nat * context))
    (ctx' : context) (s : run_status) (f : option (string * string)) :
  consistent run all st →
  length (executed st) = length (accumulated_context st) →
  ran = executed st ++ [(length (accumulated_context st), accumulated_context st)] →
  all !! length (accumulated_context st) = Some t →
  (ctx' = accumulated_context st
   ∨ ∃ out, run (length (accumulated_context st)) t (accumulated_context st) = Generated out
            ∧ ctx' = accumulated_context st ++ [(role (agent t), out)]) →
  consistent run all {| status := s; accumulated_context := ctx'; executed := ran; failure := f |}.
Proof.
  intros [Hex Hacc] Hlen -> Ht Hctx.
  set (given := accumulated_context st) in *.
  assert (∀ i : nat, (i ≤ length given)%nat → take i ctx' = take i given) as Htake.
  { intros i Hi. destruct Hctx as [-> | (out & _ & ->)]; [reflexivity|].
    now apply take_app_le. }
  split; cbn [executed accumulated_context].
  - intros i j ctx Hi. apply lookup_snoc_Some in Hi as [[Hlt Hi] | [-> Hi]].
    + destruct (Hex _ _ _ Hi) as [-> ->]. split; [reflexivity|].
      symmetry. apply Htake. lia.
    + injection Hi as <- <-. rewrite Hlen. split; [reflexivity|].
      rewrite Htake by lia. symmetry. now apply take_ge.
  - intros i who out Hi.
    destruct Hctx as [-> | (o & Hrun & ->)]; [now apply Hacc|].
    apply lookup_snoc_Some in Hi as [[Hlt Hi] | [-> Hi]].
    + destruct (Hacc _ _ _ Hi) as (t' & Ht' & Hwho & Hrun').
      exists t'. rewrite take_app_le by (fold given; lia). auto.
    + injection Hi as <- <-. exists t. rewrite take_app_length. auto.
Qed.

Lemma run_tasks_sound (tasks : list Task) :
  ∀ (position : nat) (st : run_state),
    drop position all = tasks →
    (position ≤ length all)%nat →
    length (accumulated_context st) = position →
    length (executed st) = position →
    consistent run all st →
    consistent run all (run_tasks run position tasks st)
    ∧ finished run all (run_tasks run position tasks st).
Proof.
  induction tasks as [|t rest IH]; intros position st Hdrop Hpos Hacc Hex Hst.
  - cbn [run_tasks]. split.
    + destruct Hst as [H1 H2]. split; cbn [executed accumulated_context]; assumption.
    + left. cbn [status executed accumulated_context].
      assert (length (drop position all) = 0) as Hlen by now rewrite Hdrop.
      rewrite length_drop in Hlen. repeat split; lia.
  - assert (all !! position = Some t) as Ht.
    { rewrite <- (Nat.add_0_r position), <- lookup_drop, Hdrop. reflexivity. }
    assert (drop (S position) all = rest) as Hrest.
    { rewrite (drop_S _ _ _ Ht) in Hdrop. congruence. }
    pose proof (lookup_lt_Some _ _ _ Ht) as Hlt.
    cbn [run_tasks]. subst position.
    destruct (run (length (accumulated_context st)) t (accumulated_context st))
      as [out|msg] eqn:Hrun.
    + apply IH; cbn [executed accumulated_context];
        rewrite ?length_app; cbn [length]; try lia; try assumption.
      eapply consistent_step; eauto.
    + split.
      * eapply consistent_step; eauto.
      * right. cbn [status executed accumulated_context failure].
        rewrite length_app. cbn [length]. split; [reflexivity|]. split; [lia|].
        exists t, msg. auto.
Qed.

Lemma kickoff_sound (c : Crew) :
  all = crew_tasks c →
  consistent run all (kickoff run c) ∧ finished run all (kickoff run c).
Proof.
  intros Hall. unfold kickoff. rewrite <- Hall.
  apply run_tasks_sound; cbn; try reflexivity; try lia.
  split; intros i ? ? H; cbn in H; discriminate.
Qed.

End RunTasks.

(** C9: in every run the task executed in position [i] is the [i]-th
    declared task and its prompt context is exactly the first [i] entries of
    the accumulated context, which are the outputs the agents of tasks
    [0..i-1] generated, in order; after a run that completed, the accumulated
    context has one entry per task. *)
Theorem context_is_prefix_of_earlier_outputs
    (run : nat → Task → context → gen_result) (c : Crew) :
  let st := Orchestrator.kickoff run c in
  (∀ i j ctx, Orchestrator.executed st !! i = Some (j, ctx) →
              j = i ∧ ctx = take i (Orchestrator.accumulated_context st) ∧ length ctx = i)
  ∧ (∀ i who out, Orchestrator.accumulated_context st !! i = Some (who, out) →
                  ∃ t, crew_tasks c !! i = Some t ∧ who = role (agent t)
                       ∧ run i t (take i (Orchestrator.accumulated_context st)) = Generated out)
  ∧ (Orchestrator.status st = Orchestrator.Completed →
     length (Orchestrator.accumulated_context st) = length (crew_tasks c)
     ∧ length (Orchestrator.executed st) = length (crew_tasks c)).
Proof.
  cbn zeta.
  destruct (kickoff_sound run (crew_tasks c) c eq_refl) as [[Hex Hacc] Hfin].
  split; [|split].
  - intros i j ctx Hi. destruct (Hex _ _ _ Hi) as [-> ->].
    split; [reflexivity|]. split; [reflexivity|].
    pose proof (lookup_lt_Some _ _ _ Hi) as Hlt.
    rewrite length_take. destruct Hfin as [(_ & H1 & H2) | (_ & H1 & _)]; lia.
  - exact Hacc.
  - intros Hdone. destruct Hfin as [(_ & H1 & H2) | (Hfail & _)]; [auto | congruence].
Qed.

(** A generation failure on the task in position [k] ends the run there. *)
Lemma failure_stops_run (run : nat → Task → context → gen_result) (c : Crew)
    (k : nat) (ctx : context) (t : Task) (msg : string) :
  crew_tasks c !! k = Some t →
  (k, ctx) ∈ Orchestrator.executed (Orchestrator.kickoff run c) →
  run k t ctx = GenerationFails msg →
  Orchestrator.status (Orchestrator.kickoff run c) = Orchestrator.Failed
  ∧ length (Orchestrator.executed (Orchestrator.kickoff run c)) = S k
  ∧ Orchestrator.failure (Orchestrator.kickoff run c) = Some (role (agent t), msg).
Proof.
  intros Ht Hin Hrun.
  destruct (kickoff_sound run (crew_tasks c) c eq_refl) as [[Hex Hacc] Hfin].
  set (st := Orchestrator.kickoff run c) in *.
  apply list_elem_of_lookup in Hin as [i Hi].
  destruct (Hex _ _ _ Hi) as [<- ->].
  pose proof (lookup_lt_Some _ _ _ Hi) as Hlt.
  assert (¬ (k < length (Orchestrator.accumulated_context st))%nat) as Hge.
  { intros Hk. destruct (lookup_lt_is_Some_2 _ _ Hk) as [[who out] Hout].
    destruct (Hacc _ _ _ Hout) as (t' & Ht' & _ & Hgen). congruence. }
  destruct Hfin as [(_ & H1 & H2) | (Hfail & H1 & t' & msg' & Ht' & Hrun' & Hf)]; [lia|].
  assert (k = length (Orchestrator.accumulated_context st)) as Hk by lia.
  rewrite <- Hk in *. rewrite take_ge in Hrun by lia.
  split; [exact Hfail|]. split; [lia|]. congruence.
Qed.

Lemma crew_kickoff_unfold (w : world) (c : Crew) :
  crew_kickoff w c
  = (EvKickoff :: map task_run_event (Orchestrator.executed (Orchestrator.kickoff (w_agent_run w) c)),
     Orchestrator.result (Orchestrator.kickoff (w_agent_run w) c)).
Proof. reflexivity. Qed.

Lemma task_run_event_inv (calls : list (nat * context)) (ev : event) :
  ev ∈ map task_run_event calls → ∃ i ctx, ev = EvTaskRun i ctx ∧ (i, ctx) ∈ calls.
Proof.
  intros H. apply list_elem_of_In, in_map_iff in H as ([i ctx] & <- & H).
  exists i, ctx. split; [reflexivity|]. now apply list_elem_of_In.
Qed.

(** The handler when the crew raises: the error is shown and the script
    stops; nothing after the [try] runs. *)
Lemma analyse_crew_raises (c : config) (p : params) (d : date) (w : world)
    (market_data records : json) (rows : list row) (e : exn) :
  py_get market_data "data" = Ret records →
  truthy records = true →
  build_rows market_data = Ret rows →
  Orchestrator.result (Orchestrator.kickoff (w_agent_run w) (crypto_crew c p d)) = Raise e →
  analyse c p d w market_data
  = (EvKickoff
       :: map task_run_event
            (Orchestrator.executed (Orchestrator.kickoff (w_agent_run w) (crypto_crew c p d)))
       ++ [EvError "Error during AI analysis: " (Some e)],
     Halt).
Proof.
  intros Hget Htruthy Hrows Hres. unfold analyse.
  rewrite Hget. cbn [lift mbind M_bind]. rewrite Htruthy. cbn [negb].
  rewrite Hrows, crew_kickoff_unfold, Hres.
  generalize (map task_run_event
                (Orchestrator.executed
                   (Orchestrator.kickoff (w_agent_run w) (crypto_crew c p d)))).
  intros calls. reflexivity.
Qed.

(** The handler when the crew completes and the metrics are computed. *)
Lemma analyse_crew_returns (c : config) (p : params) (d : date) (w : world)
    (market_data records : json) (df : list row) (m : metrics) (ai_report : string) :
  py_get market_data "data" = Ret records →
  truthy records = true →
  build_rows market_data = Ret df →
  compute_metrics w df = Ret m →
  Orchestrator.result (Orchestrator.kickoff (w_agent_run w) (crypto_crew c p d)) = Ret ai_report →
  analyse c p d w market_data
  = (EvKickoff
       :: map task_run_event
            (Orchestrator.executed (Orchestrator.kickoff (w_agent_run w) (crypto_crew c p d)))
       ++ trace_of (show_results w p d df m ai_report),
     outcome_of (show_results w p d df m ai_report)).
Proof.
  intros Hget Htruthy Hrows Hm Hres. unfold analyse.
  rewrite Hget. cbn [lift mbind M_bind]. rewrite Htruthy. cbn [negb].
  rewrite Hrows, crew_kickoff_unfold, Hres.
  generalize (map task_run_event
                (Orchestrator.executed
                   (Orchestrator.kickoff (w_agent_run w) (crypto_crew c p d)))).
  intros calls. cbn [try_except mbind M_bind]. rewrite Hm.
  destruct (show_results w p d df m ai_report) as [t o]. reflexivity.
Qed.

(** C4: if the generation of the task in position [k] fails during the
    run, the run is failed, no task after position [k] is executed, the
    handler shows the error and stops, and its trace holds nothing but the
    kickoff, the task runs and that error: the report is never composed. *)
Theorem generation_failure_aborts_run (c : config) (p : params) (d : date) (w : world)
    (market_data records : json) (rows : list row)
    (k : nat) (ctx : context) (t : Task) (msg : string) :
  py_get market_data "data" = Ret records →
  truthy records = true →
  build_rows market_data = Ret rows →
  crew_tasks (crypto_crew c p d) !! k = Some t →
  (k, ctx) ∈ Orchestrator.executed (Orchestrator.kickoff (w_agent_run w) (crypto_crew c p d)) →
  w_agent_run w k t ctx = GenerationFails msg →
  Orchestrator.status (Orchestrator.kickoff (w_agent_run w) (crypto_crew c p d))
  = Orchestrator.Failed
  ∧ (∀ j ctx', EvTaskRun j ctx' ∈ trace_of (analyse c p d w market_data) → (j ≤ k)%nat)
  ∧ last (trace_of (analyse c p d w market_data))
    = Some (analysis_error (GenerationFailed (role (agent t)) msg))
  ∧ outcome_of (analyse c p d w market_data) = Halt
  ∧ (∀ ev, ev ∈ trace_of (analyse c p d w market_data) →
           ev = EvKickoff ∨ (∃ j ctx', ev = EvTaskRun j ctx')
           ∨ ev = analysis_error (GenerationFailed (role (agent t)) msg)).
Proof.
  intros Hget Htruthy Hrows Ht Hin Hrun.
  destruct (failure_stops_run _ _ _ _ _ _ Ht Hin Hrun) as (Hfail & Hlen & Hwhy).
  destruct (kickoff_sound (w_agent_run w) _ (crypto_crew c p d) eq_refl) as [[Hex _] _].
  assert (Orchestrator.result (Orchestrator.kickoff (w_agent_run w) (crypto_crew c p d))
          = Raise (GenerationFailed (role (agent t)) msg)) as Hres.
  { unfold Orchestrator.result. now rewrite Hfail, Hwhy. }
  rewrite (analyse_crew_raises c p d w _ _ _ _ Hget Htruthy Hrows Hres).
  cbn [trace_of outcome_of fst snd].
  set (st := Orchestrator.kickoff (w_agent_run w) (crypto_crew c p d)) in *.
  split; [exact Hfail|].
  assert (∀ ev, ev ∈ EvKickoff :: map task_run_event (Orchestrator.executed st)
                       ++ [analysis_error (GenerationFailed (role (agent t)) msg)] →
                ev = EvKickoff
                ∨ (∃ j ctx', ev = EvTaskRun j ctx' ∧ (j, ctx') ∈ Orchestrator.executed st)
                ∨ ev = analysis_error (GenerationFailed (role (agent t)) msg)) as Hshape.
  { intros ev Hev. apply elem_of_cons in Hev as [-> | Hev]; [now left|].
    apply elem_of_app in Hev as [Hev | Hev].
    - right. left. now apply task_run_event_inv.
    - apply elem_of_cons in Hev as [-> | Hev]; [now right; right|].
      now apply elem_of_nil in Hev. }
  split; [|split; [|split]].
  - intros j ctx' Hev.
    destruct (Hshape _ Hev) as [Hk | [(j' & c' & Heq & Hcall) | He]]; try discriminate.
    injection Heq as -> ->.
    apply list_elem_of_lookup in Hcall as [i Hi].
    destruct (Hex _ _ _ Hi) as [-> _].
    pose proof (lookup_lt_Some _ _ _ Hi). lia.
  - change (EvKickoff :: ?l ++ ?r) with ((EvKickoff :: l) ++ r). apply last_snoc.
  - reflexivity.
  - intros ev Hev.
    destruct (Hshape _ Hev) as [Hk | [(j' & c' & Heq & _) | He]]; eauto.
Qed.

Lemma generation_failure_aborts_run_witness :
  outcome_of (analyse sample_config sample_params sample_date failing_world sample_market_data)
  = Halt.
Proof.
  refine (proj1 (proj2 (proj2 (proj2
    (generation_failure_aborts_run sample_config sample_params sample_date failing_world
       sample_market_data
       (JArr [sample_coin "Alpha" "AAA" 100 30 2; sample_coin "Beta" "BBB" 50 20 (-4)])
       sample_rows 2
       [("Senior Market Research Analyst", "output 0");
        ("Technical Analysis Specialist", "output 1")]
       (sentiment_task sample_config sample_params sample_date)
       "quota exceeded" eq_refl eq_refl eq_refl eq_refl _ eq_refl))))).
  apply (list_elem_of_lookup_2 _ 2). reflexivity.
Defined.

(** ** Missing market data *)

Lemma analyse_without_records (c : config) (p : params) (d : date) (w : world)
    (market_data records : json) :
  py_get market_data "data" = Ret records →
  truthy records = false →
  analyse c p d w market_data = ([EvError "No market data returned from API." None], Halt).
Proof.
  intros Hget Hfalsy. unfold analyse.
  rewrite Hget. cbn [lift mbind M_bind]. rewrite Hfalsy. reflexivity.
Qed.

(** The guard of line 264: given a dict whose "data" entry is missing or
    falsy, the handler shows the data-unavailable error and stops; the crew
    is never kicked off, no task runs, and nothing else is rendered. *)
Lemma empty_market_data_stops (c : config) (p : params) (d : date) (w : world)
    (market_data records : json) :
  py_get market_data "data" = Ret records →
  truthy records = false →
  analyse c p d w market_data = ([EvError "No market data returned from API." None], Halt)
  ∧ (EvKickoff ∉ trace_of (analyse c p d w market_data))
  ∧ (∀ i ctx, EvTaskRun i ctx ∉ trace_of (analyse c p d w market_data))
  ∧ (∀ text, EvMarkdown text ∉ trace_of (analyse c p d w market_data))
  ∧ (∀ names, EvTabs names ∉ trace_of (analyse c p d w market_data)).
Proof.
  intros Hget Hfalsy.
  pose proof (analyse_without_records c p d w _ _ Hget Hfalsy) as Hrun.
  rewrite Hrun. cbn [trace_of fst].
  repeat split; try (intros; intros Hin);
    try (intros Hin); apply elem_of_cons in Hin as [Hin | Hin];
    try discriminate; now apply elem_of_nil in Hin.
Qed.

Lemma empty_market_data_stops_witness :
  analyse sample_config sample_params sample_date sample_world empty_dict
  = ([EvError "No market data returned from API." None], Halt).
Proof.
  exact (proj1 (empty_market_data_stops sample_config sample_params sample_date sample_world
                  empty_dict JNull eq_refl eq_refl)).
Defined.

(** The same through the fetch: whenever [fetch_market_data] returns a
    value without records, the handler stops right after the error. *)
Lemma generate_analysis_without_records (ns : namespaces) (c : config) (p : params)
    (d : date) (w : world) (t : list event) (market_data records : json) :
  fetch_market_data ns (w_market w) = (t, Ret market_data) →
  py_get market_data "data" = Ret records →
  truthy records = false →
  generate_analysis ns c p d w
  = (EvSpinner "Fetching current market data and generating today's report..."
       :: t ++ [EvError "No market data returned from API." None],
     Halt).
Proof.
  intros Hfetch Hget Hfalsy. unfold generate_analysis.
  rewrite Hfetch. cbn [emit mbind M_bind].
  rewrite (analyse_without_records c p d w _ _ Hget Hfalsy). reflexivity.
Qed.

(** C3: the code misses what the claim asks.  With a market source that
    answers an empty listing, the handler of the module as shipped raises
    [NameError] from [fetch_market_data] before the guard of line 264, so the
    data-unavailable error is not shown; and market data that is [null] or an
    empty list makes the guard itself raise [AttributeError] at [.get], again
    without the error.  In none of these runs is the crew started. *)
Theorem empty_market_response_is_not_reported :
  w_market empty_market_world = JsonBody (JObj {[ "data" := JArr [] ]})
  ∧ generate_analysis (shipped sample_config sample_params sample_date sample_ambient)
      sample_config sample_params sample_date empty_market_world
    = ([EvSpinner "Fetching current market data and generating today's report..."],
       Raise (NameError "COINMARKETCAP_API"))
  ∧ analyse sample_config sample_params sample_date empty_market_world JNull
    = ([], Raise (AttributeError "get"))
  ∧ analyse sample_config sample_params sample_date empty_market_world (JArr [])
    = ([], Raise (AttributeError "get")).
Proof. repeat split. Qed.

(** ** Derived metrics *)







(** ** The composed report *)

Lemma append_assoc (a b c : string) : (a +:+ b) +:+ c = a +:+ (b +:+ c).
Proof.
  induction a as [|x a IH]; [reflexivity|].
  change ((String x a +:+ b) +:+ c) with (String x ((a +:+ b) +:+ c)).
  now rewrite IH.
Qed.

(** Title, summary, label, synthesis text, footer. *)
Lemma final_report_sections (d : date) (m : metrics) (ai_report : string) :
  final_report d m ai_report
  = report_title d +:+ data_summary d m +:+ insights_label +:+ ai_report
    +:+ (nl +:+ nl) +:+ recommendation_footer.
Proof.
  unfold final_report, report_title, insights_label.
  now rewrite !append_assoc.
Qed.

Lemma last_of_five {A} (pre : list A) (a b c d e : A) :
  last (pre ++ [a; b; c; d; e]) = Some e.
Proof.
  change [a; b; c; d; e] with ([a; b; c; d] ++ [e]).
  rewrite app_assoc. apply last_snoc.
Qed.

(** When the rendering of the results returns, the last thing shown is
    the report. *)
Lemma show_results_last (w : world) (p : params) (d : date) (df : list row) (m : metrics)
    (ai_report : string) :
  outcome_of (show_results w p d df m ai_report) = Ret tt →
  last (trace_of (show_results w p d df m ai_report))
  = Some (EvMarkdown (final_report d m ai_report)).
Proof.
  unfold show_results, library_call.
  destruct (w_treemap w df); [discriminate|].
  destruct (w_price_chart w df (top_n p)); [discriminate|].
  destruct (sentiment_tab w) as [t [[]| | |]]; try discriminate.
  destruct (w_dataframe w df); [discriminate|].
  intros _. cbn.
  rewrite !app_comm_cons. apply last_of_five.
Qed.

(** The rendering reads the coin count of the parameters and nothing else
    of them. *)
Lemma show_results_params (w : world) (p p' : params) (d : date) (df : list row)
    (m : metrics) (ai_report : string) :
  top_n p' = top_n p →
  show_results w p' d df m ai_report = show_results w p d df m ai_report.
Proof. intros H. unfold show_results. now rewrite H. Qed.

(** C8 as stated fails: a run with a note and a run without
    one show the same document when the crew answers the same, and the
    document does not carry the note. *)
Lemma final_report_does_not_carry_the_note :
  last (trace_of (analyse sample_config sample_params_note sample_date sample_world
                    sample_market_data))
  = Some (EvMarkdown (final_report sample_date sample_metrics "output 3"))
  ∧ contains (additional_note sample_params_note)
      (final_report sample_date sample_metrics "output 3") = false
  ∧ analyse sample_config sample_params_note sample_date sample_world sample_market_data
    = analyse sample_config sample_params sample_date sample_world sample_market_data.
Proof. repeat split; vm_compute; reflexivity. Qed.

(** C8 (amended): when the rendering of the results returns, the document
    shown last is composed from the date, the three derived metrics and the
    crew's final output text; it is a title, the quantitative summary, the
    synthesis text and the fixed recommendation footer, in that order.  The
    note is no input of the composition: it is appended to the
    report-generation task's description, and with other parameters of the
    same coin count for which the crew answers the same text the document is
    the same. *)
Theorem final_report_structure (c : config) (p : params) (d : date) (w : world)
    (market_data records : json) (df : list row) (m : metrics) (ai_report : string) :
  py_get market_data "data" = Ret records →
  truthy records = true →
  build_rows market_data = Ret df →
  compute_metrics w df = Ret m →
  Orchestrator.result (Orchestrator.kickoff (w_agent_run w) (crypto_crew c p d)) = Ret ai_report →
  outcome_of (show_results w p d df m ai_report) = Ret tt →
  last (trace_of (analyse c p d w market_data)) = Some (EvMarkdown (final_report d m ai_report))
  ∧ final_report d m ai_report
    = report_title d +:+ data_summary d m +:+ insights_label +:+ ai_report
      +:+ (nl +:+ nl) +:+ recommendation_footer
  ∧ contains (today_str d) (data_summary d m) = true
  ∧ contains (format_2f (total_market_cap m)) (data_summary d m) = true
  ∧ contains (format_2f (total_volume m)) (data_summary d m) = true
  ∧ contains (format_2f (avg_change m)) (data_summary d m) = true
  ∧ contains (additional_note p) (description (report_generation c p d)) = true
  ∧ (∀ p', top_n p' = top_n p →
           Orchestrator.result (Orchestrator.kickoff (w_agent_run w) (crypto_crew c p' d))
           = Ret ai_report →
           last (trace_of (analyse c p' d w market_data))
           = Some (EvMarkdown (final_report d m ai_report))).
Proof.
  intros Hget Htruthy Hrows Hm Hres Hshown.
  assert (∀ p', top_n p' = top_n p →
                Orchestrator.result (Orchestrator.kickoff (w_agent_run w) (crypto_crew c p' d))
                = Ret ai_report →
                last (trace_of (analyse c p' d w market_data))
                = Some (EvMarkdown (final_report d m ai_report))) as Hany.
  { intros p' Hn Hres'.
    rewrite (analyse_crew_returns c p' d w _ _ _ _ _ Hget Htruthy Hrows Hm Hres').
    cbn [trace_of fst]. rewrite (show_results_params w p p' d df m ai_report Hn).
    rewrite app_comm_cons, last_app.
    now rewrite (show_results_last w p d df m ai_report Hshown). }
  split; [now apply Hany|]. split; [apply final_report_sections|].
  unfold data_summary.
  repeat split; auto with pieces.
  apply report_generation_description_note.
Qed.

Lemma final_report_structure_witness :
  last (trace_of (analyse sample_config sample_params sample_date sample_world
                    sample_market_data))
  = Some (EvMarkdown (final_report sample_date sample_metrics "output 3")).
Proof.
  exact (proj1 (final_report_structure sample_config sample_params sample_date sample_world
                  sample_market_data
                  (JArr [sample_coin "Alpha" "AAA" 100 30 2; sample_coin "Beta" "BBB" 50 20 (-4)])
                  sample_rows sample_metrics "output 3"
                  eq_refl eq_refl eq_refl eq_refl eq_refl eq_refl)).
Defined.

(** * Further properties of the script *)

(** ** Environment setup *)

(** X1: the configuration is loaded exactly when the three variables are
    set to non-empty strings, and then it holds their values. *)
Theorem load_config_succeeds_iff (getenv : string → option string) (c : config) :
  load_config getenv = Ret c
  ↔ (getenv "COINMARKETCAP_API_KEY" = Some (COINMARKETCAP_API_KEY c)
     ∧ COINMARKETCAP_API_KEY c ≠ "")
    ∧ (getenv "GEMINI_API_KEY" = Some (GEMINI_API_KEY c) ∧ GEMINI_API_KEY c ≠ "")
    ∧ (getenv "MODEL" = Some (MODEL c) ∧ MODEL c ≠ "").
Proof.
  destruct c as [k g m]. cbn [COINMARKETCAP_API_KEY GEMINI_API_KEY MODEL].
  unfold load_config, require_env.
  destruct (getenv "COINMARKETCAP_API_KEY") as [[|a1 s1]|];
    destruct (getenv "GEMINI_API_KEY") as [[|a2 s2]|];
    destruct (getenv "MODEL") as [[|a3 s3]|];
    (split; [intros H; try discriminate; injection H as <- <- <-; repeat split; discriminate
            | intros ((H1 & N1) & (H2 & N2) & (H3 & N3));
              try discriminate; try congruence]).
Qed.

(** X2: when the setup fails it raises [ValueError] naming the first
    variable, in the order CoinMarketCap key, Gemini key, model, that is
    unset or empty. *)
Theorem load_config_reports_first_missing (getenv : string → option string) (e : exn) :
  load_config getenv = Raise e →
  (unset getenv "COINMARKETCAP_API_KEY" ∧ e = missing_variable "COINMARKETCAP_API_KEY")
  ∨ (¬ unset getenv "COINMARKETCAP_API_KEY" ∧ unset getenv "GEMINI_API_KEY"
     ∧ e = missing_variable "GEMINI_API_KEY")
  ∨ (¬ unset getenv "COINMARKETCAP_API_KEY" ∧ ¬ unset getenv "GEMINI_API_KEY"
     ∧ unset getenv "MODEL" ∧ e = missing_variable "MODEL").
Proof.
  unfold load_config, require_env, unset, missing_variable.
  destruct (getenv "COINMARKETCAP_API_KEY") as [[|a1 s1]|];
    try (intros [= <-]; left; split; [auto | reflexivity]);
  destruct (getenv "GEMINI_API_KEY") as [[|a2 s2]|];
    try (intros [= <-]; right; left;
         split; [intros [?|?]; discriminate | split; [auto | reflexivity]]);
  destruct (getenv "MODEL") as [[|a3 s3]|]; intros [= <-];
    right; right;
    (split; [intros [?|?]; discriminate
            | split; [intros [?|?]; discriminate | split; [auto | reflexivity]]]).
Qed.

Lemma load_config_reports_first_missing_witness :
  load_config sample_getenv = Raise (missing_variable "GEMINI_API_KEY")
  ∧ ¬ unset sample_getenv "COINMARKETCAP_API_KEY".
Proof.
  destruct (load_config_reports_first_missing sample_getenv
              (missing_variable "GEMINI_API_KEY") eq_refl)
    as [[_ H] | [(H & _ & _) | (_ & H & _)]].
  - discriminate H.
  - split; [reflexivity | exact H].
  - exfalso. apply H. left. reflexivity.
Defined.

(** ** The two fetches *)

Lemma load_global_cases (ns : namespaces) (name : string) :
  (∃ v, load_global ns name = Ret v) ∨ load_global ns name = Raise (NameError name).
Proof.
  unfold load_global.
  destruct (ns_globals ns !! name); [eauto|].
  destruct (ns_ambient ns !! name); eauto.
Qed.

(** X3: [fetch_market_data] raises nothing but the [NameError] of its
    header line, and then sends no request; otherwise it sends exactly one
    request, with the resolved value as key, and returns the decoded body, or
    the empty dict after one error message when any of the three calls in the
    [try] raised. *)
Theorem fetch_market_data_outcomes (ns : namespaces) (net : http_outcome) :
  (load_global ns "COINMARKETCAP_API" = Raise (NameError "COINMARKETCAP_API")
   ∧ fetch_market_data ns net = ([], Raise (NameError "COINMARKETCAP_API")))
  ∨ (∃ key, load_global ns "COINMARKETCAP_API" = Ret key
            ∧ match raised_by net with
              | Some e =>
                  fetch_market_data ns net
                  = ([EvRequestsGet market_url {["X-CMC_PRO_API_KEY" := key]}
                        market_request_params; market_error e],
                     Ret empty_dict)
              | None =>
                  ∃ v, net = JsonBody v
                       ∧ fetch_market_data ns net
                         = ([EvRequestsGet market_url {["X-CMC_PRO_API_KEY" := key]}
                               market_request_params],
                            Ret v)
              end).
Proof.
  unfold fetch_market_data.
  destruct (load_global_cases ns "COINMARKETCAP_API") as [[key Hkey] | Hkey]; rewrite Hkey.
  - right. exists key. split; [reflexivity|].
    destruct net as [e|e|e|v]; cbn [raised_by]; try reflexivity.
    exists v. split; reflexivity.
  - left. split; reflexivity.
Qed.

(** X4: [fetch_live_sentiment_data] sends exactly one request, to the
    fixed URL, without headers or query; it shows an error message exactly
    when it swallowed an exception, raised by one of the three calls or by
    the subscripts, and then returns the empty dict. *)
Theorem fetch_live_sentiment_data_request_and_message (net : http_outcome) :
  (∃ body v, net = JsonBody body ∧ first_sentiment_record body = Ret v
             ∧ fetch_live_sentiment_data net
               = ([EvRequestsGet sentiment_url ∅ ∅], Ret v))
  ∨ (∃ e, (raised_by net = Some e
           ∨ ∃ body, net = JsonBody body ∧ first_sentiment_record body = Raise e)
          ∧ fetch_live_sentiment_data net
            = ([EvRequestsGet sentiment_url ∅ ∅; sentiment_error e], Ret empty_dict)).
Proof.
  destruct net as [e|e|e|body]; try (right; exists e; split; [left|]; reflexivity).
  rewrite fetch_live_sentiment_data_body.
  destruct (first_sentiment_record_total body) as [[v Hv] | [e He]].
  - left. exists body, v. rewrite Hv. auto.
  - right. exists e. rewrite He. split; [right; eauto | reflexivity].
Qed.

(** ** The sentiment report *)

Lemma fallback_is_not_a_reading (a b : string) :
  "The current Crypto Fear & Greed Index is **" +:+ a +:+ "** " +:+ "(" +:+ b +:+ "). "
  +:+ "This reflects the overall market sentiment as of now."
  ≠ sentiment_fallback.
Proof. discriminate. Qed.

(** What [generate_sentiment_analysis] does with what the fetch returned. *)
Lemma generate_sentiment_analysis_cases (w : world) (t : list event) (v : json) :
  fetch_live_sentiment_data (w_sentiment w) = (t, Ret v) →
  generate_sentiment_analysis w
  = if truthy v then
      match v with
      | JObj m =>
          (t, Ret (v, "The current Crypto Fear & Greed Index is **"
                      +:+ py_str w (default (JStr "N/A") (m !! "value")) +:+ "** "
                      +:+ "(" +:+ py_str w (default (JStr "Unknown") (m !! "value_classification"))
                      +:+ "). "
                      +:+ "This reflects the overall market sentiment as of now."))
      | _ => (t, Raise (AttributeError "get"))
      end
    else (t, Ret (v, sentiment_fallback)).
Proof.
  intros Hfetch. unfold generate_sentiment_analysis. rewrite Hfetch.
  cbn [mbind M_bind]. destruct (truthy v); [|cbn; now rewrite app_nil_r].
  destruct v; cbn; now rewrite ?app_nil_r.
Qed.

(** X5: when the first sentiment record is truthy but not a dict,
    [generate_sentiment_analysis] raises [AttributeError]; the sentiment tab
    calls it outside its [try], so the error leaves the tab; the rendering of
    the results then never returns and never shows the final report, and it
    raises that [AttributeError] when the two figures before the tab were
    drawn. *)
Theorem non_dict_sentiment_record_breaks_results (w : world) (p : params) (d : date)
    (df : list row) (m : metrics) (ai_report : string) (t : list event) (v : json) :
  fetch_live_sentiment_data (w_sentiment w) = (t, Ret v) →
  truthy v = true →
  (∀ o, v ≠ JObj o) →
  generate_sentiment_analysis w = (t, Raise (AttributeError "get"))
  ∧ sentiment_tab w = (EvSubheader "Market Sentiment Analysis" :: t, Raise (AttributeError "get"))
  ∧ outcome_of (show_results w p d df m ai_report) ≠ Ret tt
  ∧ (EvMarkdown (final_report d m ai_report) ∉ trace_of (show_results w p d df m ai_report))
  ∧ (w_treemap w df = None → w_price_chart w df (top_n p) = None →
     outcome_of (show_results w p d df m ai_report) = Raise (AttributeError "get")).
Proof.
  intros Hfetch Htruthy Hdict.
  assert (generate_sentiment_analysis w = (t, Raise (AttributeError "get"))) as Hgen.
  { rewrite (generate_sentiment_analysis_cases w t v Hfetch), Htruthy.
    destruct v; try reflexivity. now destruct (Hdict m0). }
  assert (sentiment_tab w
          = (EvSubheader "Market Sentiment Analysis" :: t, Raise (AttributeError "get"))) as Htab.
  { unfold sentiment_tab. rewrite Hgen. reflexivity. }
  assert (∀ ev, ev ∈ t → ∃ url h q e, ev = EvRequestsGet url h q ∨ ev = sentiment_error e)
    as Ht.
  { intros ev Hev.
    destruct (fetch_live_sentiment_data_returns (w_sentiment w)) as [x [H | [_ [e H]]]];
      rewrite H in Hfetch; injection Hfetch as <- _;
      repeat (apply elem_of_cons in Hev as [-> | Hev];
              [exists sentiment_url, ∅, ∅, TypeError; auto; fail|]);
      try (apply elem_of_cons in Hev as [-> | Hev];
           [exists sentiment_url, ∅, ∅, e; now right|]);
      now apply elem_of_nil in Hev. }
  split; [exact Hgen|]. split; [exact Htab|].
  unfold show_results, library_call. rewrite Htab.
  destruct (w_treemap w df); destruct (w_price_chart w df (top_n p)); cbn;
    (split; [discriminate|]); (split; [|try reflexivity; intros; discriminate]);
    intros Hin;
    repeat (apply elem_of_cons in Hin as [Hin | Hin]; [discriminate|]);
    try (now apply elem_of_nil in Hin);
    rewrite ?app_nil_r in Hin;
    destruct (Ht _ Hin) as (url & h & q & e & [H | H]); discriminate.
Qed.

Lemma non_dict_sentiment_record_breaks_results_witness :
  outcome_of (show_results numeric_sentiment_world sample_params sample_date sample_rows
                sample_metrics "output 3")
  = Raise (AttributeError "get").
Proof.
  refine (proj2 (proj2 (proj2 (proj2
    (non_dict_sentiment_record_breaks_results numeric_sentiment_world sample_params
       sample_date sample_rows sample_metrics "output 3" [sentiment_request] (JInt 5)
       eq_refl eq_refl _)))) eq_refl eq_refl).
  intros o. discriminate.
Defined.

(** X6: whenever [generate_sentiment_analysis] returns, its text is the
    fallback exactly when the sentiment data is falsy, and the data it
    returns is what the fetch returned. *)
Theorem fallback_text_iff_no_data (w : world) (t : list event) (v : json) (text : string) :
  generate_sentiment_analysis w = (t, Ret (v, text)) →
  (text = sentiment_fallback ↔ truthy v = false)
  ∧ fetch_live_sentiment_data (w_sentiment w) = (t, Ret v).
Proof.
  intros Hgen.
  destruct (fetch_live_sentiment_data_returns (w_sentiment w)) as [x [H | [_ [e H]]]];
    rewrite (generate_sentiment_analysis_cases w _ _ H) in Hgen;
    (destruct (truthy x) eqn:Hx;
     [ destruct x; try discriminate; injection Hgen as <- <- <-;
       split; [split; [intros Hf; now apply fallback_is_not_a_reading in Hf | congruence]
              | now rewrite H]
     | injection Hgen as <- <- <-; split; [tauto | now rewrite H] ]).
Qed.

Lemma fallback_text_iff_no_data_witness :
  (sentiment_fallback = sentiment_fallback ↔ truthy empty_dict = false).
Proof.
  exact (proj1 (fallback_text_iff_no_data sample_world
                  [sentiment_request;
                   sentiment_error (LibraryError "ConnectionError" "unreachable")]
                  empty_dict sentiment_fallback eq_refl)).
Defined.

Lemma py_float_cases (w : world) (v : json) :
  (∃ x, py_float w v = Ret x) ∨ (∃ e, py_float w v = Raise e).
Proof.
  destruct v; cbn; eauto.
  - destruct (double_of_Z z); eauto.
  - destruct (w_float_of_str w s); eauto.
Qed.

(** X7: for a non-empty sentiment record the tab never raises: it shows
    the gauge when [float()] accepts the record's value (0 when the key is
    missing) and the gauge figure is drawn, an error message in its place
    when either raises, and in both cases the report heading and the report
    text after it. *)
Theorem sentiment_tab_with_record (w : world) (t : list event) (m : gmap string json) :
  fetch_live_sentiment_data (w_sentiment w) = (t, Ret (JObj m)) →
  truthy (JObj m) = true →
  ∃ gauge text,
    generate_sentiment_analysis w = (t, Ret (JObj m, text))
    ∧ sentiment_tab w
      = (EvSubheader "Market Sentiment Analysis"
           :: t ++ [gauge; EvMarkdown "### Sentiment Analysis Report"; EvMarkdown text],
         Ret tt)
    ∧ match py_float w (default (JInt 0) (m !! "value")) with
      | Ret reading =>
          match w_gauge w reading with
          | None => gauge = EvPlotly "Fear & Greed Index"
          | Some e => gauge = gauge_error e
          end
      | Raise e => gauge = gauge_error e
      | _ => False
      end.
Proof.
  intros Hfetch Htruthy.
  pose proof (generate_sentiment_analysis_cases w t _ Hfetch) as Hgen.
  rewrite Htruthy in Hgen.
  unfold sentiment_tab. rewrite Hgen. cbn [mbind M_bind emit]. rewrite Htruthy.
  cbn [py_get_default lift mbind M_bind].
  destruct (py_float_cases w (default (JInt 0) (m !! "value"))) as [[x Hx] | [e He]].
  - rewrite Hx. unfold library_call. destruct (w_gauge w x) as [e|].
    + exists (gauge_error e). eexists.
      split; [reflexivity|]. split; [|reflexivity].
      cbn. now rewrite <- ?app_assoc, ?app_nil_r.
    + exists (EvPlotly "Fear & Greed Index"). eexists.
      split; [reflexivity|]. split; [|reflexivity].
      cbn. now rewrite <- ?app_assoc, ?app_nil_r.
  - exists (gauge_error e). eexists. rewrite He.
    split; [reflexivity|]. split; [|reflexivity].
    cbn. now rewrite <- ?app_assoc, ?app_nil_r.
Qed.

Lemma sentiment_tab_with_record_witness :
  ∃ gauge text,
    generate_sentiment_analysis failing_world
    = ([sentiment_request],
       Ret (JObj (list_to_map [("value", JStr "45"); ("value_classification", JStr "Fear")]),
            text))
    ∧ sentiment_tab failing_world
      = (EvSubheader "Market Sentiment Analysis"
           :: [sentiment_request]
              ++ [gauge; EvMarkdown "### Sentiment Analysis Report"; EvMarkdown text],
         Ret tt)
    ∧ gauge = EvPlotly "Fear & Greed Index".
Proof.
  exact (sentiment_tab_with_record failing_world [sentiment_request]
           (list_to_map [("value", JStr "45"); ("value_classification", JStr "Fear")])
           eq_refl eq_refl).
Defined.

(** ** The market table *)

Lemma py_getitem_cases (v : json) (key : string) :
  (∃ x, py_getitem v key = Ret x)
  ∨ py_getitem v key = Raise TypeError
  ∨ py_getitem v key = Raise (KeyError key).
Proof.
  destruct v; cbn; auto.
  destruct (m !! key); eauto.
Qed.

(** Membership in a list written out. *)
Ltac in_list :=
  repeat (apply elem_of_cons; first [left; reflexivity | right]).

Ltac widen H :=
  repeat (apply elem_of_cons in H as [-> | H]; [in_list|]);
  now apply elem_of_nil in H.

Lemma quote_usd_cases (coin : json) (field : string) :
  (∃ x, quote_usd coin field = Ret x)
  ∨ quote_usd coin field = Raise TypeError
  ∨ (∃ key, key ∈ ["quote"; "USD"; field] ∧ quote_usd coin field = Raise (KeyError key)).
Proof.
  unfold quote_usd.
  destruct (py_getitem_cases coin "quote") as [[q ->] | [-> | ->]]; cbn; auto.
  - destruct (py_getitem_cases q "USD") as [[u ->] | [-> | ->]]; cbn; auto.
    + destruct (py_getitem_cases u field) as [[x ->] | [-> | ->]]; cbn; eauto.
      right. right. exists field. split; [in_list | reflexivity].
    + right. right. exists "USD". split; [in_list | reflexivity].
  - right. right. exists "quote". split; [in_list | reflexivity].
Qed.

(** X8: [coin_row] returns a row exactly when the six subscripts of the
    dict display succeed, and the row holds their values: name and symbol
    from the coin, price, market cap, volume and change from its
    [quote.USD] entry (the change read under "percent_change_24h"). *)
Theorem coin_row_returns_iff (coin : json) (r : row) :
  coin_row coin = Ret r
  ↔ py_getitem coin "name" = Ret (row_name r)
    ∧ py_getitem coin "symbol" = Ret (row_symbol r)
    ∧ quote_usd coin "price" = Ret (row_price r)
    ∧ quote_usd coin "market_cap" = Ret (row_market_cap r)
    ∧ quote_usd coin "volume_24h" = Ret (row_volume_24h r)
    ∧ quote_usd coin "percent_change_24h" = Ret (row_change_24h r).
Proof.
  unfold coin_row. split.
  - intros H.
    destruct (py_getitem coin "name") as [n| | |]; try discriminate.
    destruct (py_getitem coin "symbol") as [s| | |]; try discriminate.
    destruct (quote_usd coin "price") as [p| | |]; try discriminate.
    destruct (quote_usd coin "market_cap") as [mc| | |]; try discriminate.
    destruct (quote_usd coin "volume_24h") as [v| | |]; try discriminate.
    destruct (quote_usd coin "percent_change_24h") as [ch| | |]; try discriminate.
    cbn in H. injection H as <-. cbn. repeat split.
  - intros (-> & -> & -> & -> & -> & ->). cbn. now destruct r.
Qed.

Lemma coin_row_errors_aux (coin : json) :
  (∃ r, coin_row coin = Ret r)
  ∨ coin_row coin = Raise TypeError
  ∨ (∃ key, key ∈ ["name"; "symbol"; "quote"; "USD"; "price"; "market_cap";
                   "volume_24h"; "percent_change_24h"]
            ∧ coin_row coin = Raise (KeyError key)).
Proof.
  unfold coin_row.
  destruct (py_getitem_cases coin "name") as [[n ->] | [-> | ->]]; cbn; auto;
    [|right; right; exists "name"; split; [in_list | reflexivity]].
  destruct (py_getitem_cases coin "symbol") as [[s ->] | [-> | ->]]; cbn; auto;
    [|right; right; exists "symbol"; split; [in_list | reflexivity]].
  destruct (quote_usd_cases coin "price") as [[p ->] | [-> | (k & Hk & ->)]]; cbn; auto;
    [|right; right; exists k; split; [widen Hk | reflexivity]].
  destruct (quote_usd_cases coin "market_cap") as [[mc ->] | [-> | (k & Hk & ->)]]; cbn; auto;
    [|right; right; exists k; split; [widen Hk | reflexivity]].
  destruct (quote_usd_cases coin "volume_24h") as [[v ->] | [-> | (k & Hk & ->)]]; cbn; auto;
    [|right; right; exists k; split; [widen Hk | reflexivity]].
  destruct (quote_usd_cases coin "percent_change_24h") as [[ch ->] | [-> | (k & Hk & ->)]];
    cbn; eauto.
  right; right; exists k; split; [widen Hk | reflexivity].
Qed.

(** X9: a coin that does not give a row raises [TypeError] (a value that
    must be a dict is not one) or [KeyError] naming one of the eight keys the
    display reads; [coin_row] ends in no other way. *)
Theorem coin_row_errors (coin : json) :
  (∃ r, coin_row coin = Ret r)
  ∨ coin_row coin = Raise TypeError
  ∨ (∃ key, key ∈ ["name"; "symbol"; "quote"; "USD"; "price"; "market_cap";
                   "volume_24h"; "percent_change_24h"]
            ∧ coin_row coin = Raise (KeyError key)).
Proof. apply coin_row_errors_aux. Qed.

Lemma coin_row_cases (coin : json) :
  (∃ r, coin_row coin = Ret r) ∨ (∃ e, coin_row coin = Raise e).
Proof.
  destruct (coin_row_errors_aux coin) as [H | [H | (k & _ & H)]]; eauto.
Qed.

(** X10: [rows_of] returns a table exactly when every coin gives a row;
    the table then has one row per coin, in the order of the response. *)
Theorem rows_of_returns_iff (coins : list json) (rows : list row) :
  rows_of coins = Ret rows ↔ Forall2 (λ c r, coin_row c = Ret r) coins rows.
Proof.
  revert rows. induction coins as [|c coins IH]; intros rows; cbn [rows_of].
  - split.
    + intros [= <-]. constructor.
    + intros H. inversion H. reflexivity.
  - split.
    + intros H. destruct (coin_row c) as [r| | |] eqn:Hr; try discriminate.
      cbn in H. destruct (rows_of coins) as [rs| | |]; try discriminate.
      cbn in H. injection H as <-. constructor; [exact Hr|]. now apply IH.
    + intros H. inversion H as [|? r ? rs Hr Hrs]; subst.
      rewrite Hr. cbn. apply IH in Hrs. rewrite Hrs. reflexivity.
Qed.

(** X11: when [rows_of] raises, the exception is that of the first coin
    that gives no row: every coin before it gave one. *)
Theorem rows_of_raises_first_failure (coins : list json) (e : exn) :
  rows_of coins = Raise e →
  ∃ i c, coins !! i = Some c ∧ coin_row c = Raise e
         ∧ ∀ j c', (j < i)%nat → coins !! j = Some c' → ∃ r, coin_row c' = Ret r.
Proof.
  induction coins as [|c coins IH]; cbn [rows_of]; [discriminate|].
  intros H. destruct (coin_row c) as [r| | |] eqn:Hr; try discriminate.
  - cbn in H. destruct (rows_of coins) as [rs| | |]; try discriminate.
    cbn in H. injection H as ->.
    destruct (IH eq_refl) as (i & c0 & Hi & Hc0 & Hbefore).
    exists (S i), c0. split; [exact Hi|]. split; [exact Hc0|].
    intros [|j] c' Hj Hc'.
    + injection Hc' as <-. eauto.
    + apply (Hbefore j); [lia | exact Hc'].
  - cbn in H. injection H as ->. exists 0%nat, c. split; [reflexivity|].
    split; [exact Hr|]. intros j c' Hj. lia.
Qed.

Lemma rows_of_raises_first_failure_witness :
  ∃ i c, [sample_coin "Alpha" "AAA" 100 30 2;
          JObj (list_to_map [("name", JStr "Beta"); ("quote", sample_quote 50 20 (-4))])]
         !! i = Some c
         ∧ coin_row c = Raise (KeyError "symbol")
         ∧ ∀ j c', (j < i)%nat →
             [sample_coin "Alpha" "AAA" 100 30 2;
              JObj (list_to_map [("name", JStr "Beta"); ("quote", sample_quote 50 20 (-4))])]
             !! j = Some c' →
             ∃ r, coin_row c' = Ret r.
Proof.
  exact (rows_of_raises_first_failure
           [sample_coin "Alpha" "AAA" 100 30 2;
            JObj (list_to_map [("name", JStr "Beta"); ("quote", sample_quote 50 20 (-4))])]
           (KeyError "symbol") eq_refl).
Defined.

Lemma rows_of_bad_coin (coins : list json) (c : json) (e' : exn) :
  c ∈ coins → coin_row c = Raise e' →
  ∃ e c', c' ∈ coins ∧ coin_row c' = Raise e ∧ rows_of coins = Raise e.
Proof.
  induction coins as [|c0 coins IH]; intros Hin Hc.
  - now apply elem_of_nil in Hin.
  - cbn [rows_of]. destruct (coin_row_cases c0) as [[r Hr] | [e Hr]].
    + apply elem_of_cons in Hin as [-> | Hin]; [congruence|].
      destruct (IH Hin Hc) as (e & c' & Hc' & He & Hrows).
      exists e, c'. split; [now apply elem_of_cons; right|]. split; [exact He|].
      rewrite Hr, Hrows. reflexivity.
    + exists e, c0. split; [apply elem_of_cons; now left|]. split; [exact Hr|].
      rewrite Hr. reflexivity.
Qed.

(** X12: the table is built before the crew is started: when one coin of
    the listing gives no row, the handler raises the exception of a failing
    coin with nothing shown, no task run and no error message of its own. *)
Theorem malformed_coin_aborts_before_crew (c : config) (p : params) (d : date) (w : world)
    (m : gmap string json) (coins : list json) (bad : json) (e' : exn) :
  m !! "data" = Some (JArr coins) →
  bad ∈ coins →
  coin_row bad = Raise e' →
  ∃ e culprit, culprit ∈ coins ∧ coin_row culprit = Raise e
               ∧ analyse c p d w (JObj m) = ([], Raise e).
Proof.
  intros Hdata Hin Hbad.
  destruct (rows_of_bad_coin coins bad e' Hin Hbad) as (e & culprit & Hc & He & Hrows).
  exists e, culprit. split; [exact Hc|]. split; [exact He|].
  unfold analyse. cbn [py_get lift mbind M_bind]. rewrite Hdata. cbn [from_option id].
  destruct coins as [|c0 coins]; [now apply elem_of_nil in Hin|].
  cbn [truthy negb]. unfold build_rows. cbn [py_getitem]. rewrite Hdata.
  cbn [mbind outcome_bind]. rewrite Hrows. reflexivity.
Qed.

Lemma malformed_coin_aborts_before_crew_witness :
  ∃ e culprit,
    culprit ∈ [sample_coin "Alpha" "AAA" 100 30 2;
               JObj (list_to_map [("name", JStr "Beta"); ("quote", sample_quote 50 20 (-4))])]
    ∧ coin_row culprit = Raise e
    ∧ analyse sample_config sample_params sample_date sample_world sample_bad_market_data
      = ([], Raise e).
Proof.
  refine (malformed_coin_aborts_before_crew sample_config sample_params sample_date sample_world
            {[ "data" := JArr [sample_coin "Alpha" "AAA" 100 30 2;
                               JObj (list_to_map [("name", JStr "Beta");
                                                  ("quote", sample_quote 50 20 (-4))])] ]}
            _ (JObj (list_to_map [("name", JStr "Beta"); ("quote", sample_quote 50 20 (-4))]))
            (KeyError "symbol") eq_refl _ eq_refl).
  apply (list_elem_of_lookup_2 _ 1). reflexivity.
Defined.

(** X13: market data that is not a dict makes the handler raise
    [AttributeError] at [.get], and a truthy "data" entry that is not a list
    makes it raise [TypeError] while the table is built; in both cases
    nothing is shown and the crew is not started. *)
Theorem data_must_be_a_list_of_a_dict (c : config) (p : params) (d : date) (w : world) :
  (∀ v, (∀ m, v ≠ JObj m) → analyse c p d w v = ([], Raise (AttributeError "get")))
  ∧ (∀ m f, m !! "data" = Some f → truthy f = true → (∀ l, f ≠ JArr l) →
            analyse c p d w (JObj m) = ([], Raise TypeError)).
Proof.
  split.
  - intros v Hv. unfold analyse. destruct v; try reflexivity. now destruct (Hv m).
  - intros m f Hdata Htruthy Hlist. unfold analyse.
    cbn [py_get lift mbind M_bind]. rewrite Hdata. cbn [from_option id]. rewrite Htruthy.
    cbn [negb]. unfold build_rows. cbn [py_getitem]. rewrite Hdata.
    cbn [mbind outcome_bind].
    destruct f as [ |b|z|q|s|l|m']; try reflexivity.
    + destruct s; [discriminate Htruthy | reflexivity].
    + now destruct (Hlist l).
    + cbn in Htruthy. destruct (bool_decide (m' = ∅)); [discriminate | reflexivity].
Qed.

(** ** The figures shown and the figures reported *)

Lemma contains_middle (x pre post : string) : contains x (pre +:+ x +:+ post) = true.
Proof. apply contains_skip, contains_here. Qed.

Lemma final_report_has_cap (d : date) (m : metrics) (ai_report : string) :
  contains ("$" +:+ format_2f (total_market_cap m) +:+ "B") (final_report d m ai_report) = true.
Proof.
  assert (∃ pre post, final_report d m ai_report
                      = pre +:+ ("$" +:+ format_2f (total_market_cap m) +:+ "B") +:+ post)
    as (pre & post & ->); [|apply contains_middle].
  exists ("### Executive Summary for " +:+ today_str d +:+ nl +:+ nl
          +:+ "**Market Summary (as of " +:+ today_str d +:+ "):**" +:+ nl +:+ nl
          +:+ "- **Total Market Cap:** ").
  eexists. unfold final_report, data_summary. rewrite !append_assoc. reflexivity.
Qed.

Lemma final_report_has_volume (d : date) (m : metrics) (ai_report : string) :
  contains ("$" +:+ format_2f (total_volume m) +:+ "B") (final_report d m ai_report) = true.
Proof.
  assert (∃ pre post, final_report d m ai_report
                      = pre +:+ ("$" +:+ format_2f (total_volume m) +:+ "B") +:+ post)
    as (pre & post & ->); [|apply contains_middle].
  exists ("### Executive Summary for " +:+ today_str d +:+ nl +:+ nl
          +:+ "**Market Summary (as of " +:+ today_str d +:+ "):**" +:+ nl +:+ nl
          +:+ "- **Total Market Cap:** $" +:+ format_2f (total_market_cap m) +:+ "B" +:+ nl
          +:+ "- **24h Volume:** ").
  eexists. unfold final_report, data_summary. rewrite !append_assoc. reflexivity.
Qed.

Lemma final_report_has_change (d : date) (m : metrics) (ai_report : string) :
  contains (format_2f (avg_change m) +:+ "%") (final_report d m ai_report) = true.
Proof.
  assert (∃ pre post, final_report d m ai_report
                      = pre +:+ (format_2f (avg_change m) +:+ "%") +:+ post)
    as (pre & post & ->); [|apply contains_middle].
  exists ("### Executive Summary for " +:+ today_str d +:+ nl +:+ nl
          +:+ "**Market Summary (as of " +:+ today_str d +:+ "):**" +:+ nl +:+ nl
          +:+ "- **Total Market Cap:** $" +:+ format_2f (total_market_cap m) +:+ "B" +:+ nl
          +:+ "- **24h Volume:** $" +:+ format_2f (total_volume m) +:+ "B" +:+ nl
          +:+ "- **Average 24h Change:** ").
  eexists. unfold final_report, data_summary. rewrite !append_assoc. reflexivity.
Qed.

(** X14: whatever the sentiment tab does later, the results open with the
    five tabs and the three metrics of the overview, and each metric value
    shown there appears verbatim, with its unit, in the final report. *)
Theorem overview_metrics_match_report (w : world) (p : params) (d : date) (df : list row)
    (m : metrics) (ai_report : string) :
  ∃ cap vol chg rest,
    trace_of (show_results w p d df m ai_report)
    = EvTabs tab_names :: EvMetric "Total Market Cap" cap :: EvMetric "24h Volume" vol
        :: EvMetric "Avg 24h Change" chg :: rest
    ∧ contains cap (final_report d m ai_report) = true
    ∧ contains vol (final_report d m ai_report) = true
    ∧ contains chg (final_report d m ai_report) = true.
Proof.
  exists ("$" +:+ format_2f (total_market_cap m) +:+ "B"),
         ("$" +:+ format_2f (total_volume m) +:+ "B"),
         (format_2f (avg_change m) +:+ "%").
  unfold show_results, library_call.
  destruct (w_treemap w df); destruct (w_price_chart w df (top_n p));
    destruct (sentiment_tab w) as [t [[]| | |]]; destruct (w_dataframe w df);
    (eexists; split; [cbn; reflexivity|];
     split; [apply final_report_has_cap|];
     split; [apply final_report_has_volume | apply final_report_has_change]).
Qed.

(** ** Bodies of the wrong shape *)

(** X17: a sentiment response whose body is valid JSON but not an object
    (a list, a string, a number, [null]) never yields a record: the call
    returns the empty dict, after an error message when the membership test
    or the subscript raised. *)
Theorem non_object_sentiment_body_gives_empty_dict (body : json) :
  (∀ m, body ≠ JObj m) →
  outcome_of (fetch_live_sentiment_data (JsonBody body)) = Ret empty_dict
  ∧ (trace_of (fetch_live_sentiment_data (JsonBody body)) = [sentiment_request]
     ∨ trace_of (fetch_live_sentiment_data (JsonBody body))
       = [sentiment_request; sentiment_error TypeError]).
Proof.
  intros Hobj. rewrite fetch_live_sentiment_data_body.
  destruct (first_sentiment_record_other body Hobj) as [-> | ->]; cbn; auto.
Qed.

Lemma non_object_sentiment_body_gives_empty_dict_witness :
  outcome_of (fetch_live_sentiment_data (JsonBody (JArr [JStr "data"]))) = Ret empty_dict.
Proof.
  refine (proj1 (non_object_sentiment_body_gives_empty_dict (JArr [JStr "data"]) _)).
  intros m. discriminate.
Defined.
